(** * Camera navigation core of StudyView3D (src/Core/Navigation.js)

    A shallow embedding of the [Navigation] component and the properties
    its specification states about it.

    Numbers.  A JavaScript number is modelled by [num]: a finite value is a
    real number ([Fin r]), and the three non-finite IEEE values are kept as
    constructors, so that a division by zero or [0 * Infinity] behaves as it
    does in the source.  Finite arithmetic is idealised: it is exact (no
    rounding, no overflow, no negative zero).  The theorems on
    [panRelative] and [getWorldRightVector] are stated so as not to lean on
    that: they bound the magnitudes they assume and give their numerical
    conclusions up to a tolerance, which the quantities meet exactly in
    this model.

    THREE.  The source calls three.js (the release bundled with the viewer,
    whose [Box3] has [empty], [center] and [size]); the few [Vector3] and
    [Box3] methods it uses are transcribed in [Module THREE]. *)

From Stdlib Require Import Reals Lra Lia ZArith.
From stdpp Require Import gmap strings.

#[local] Open Scope R_scope.

(** ** Decidable comparisons on the reals, as booleans *)

Definition Rltb (a b : R) : bool := if Rlt_dec a b then true else false.
Definition Rleb (a b : R) : bool := if Rle_dec a b then true else false.
Definition Reqb (a b : R) : bool := if Req_dec_T a b then true else false.

(** ** JavaScript numbers *)

Inductive num : Type :=
| Fin (r : R)
| PInf
| NInf
| NaN.

Declare Scope num_scope.
Delimit Scope num_scope with J.
Bind Scope num_scope with num.

Definition is_fin (x : num) : bool :=
  match x with Fin _ => true | _ => false end.

(** The infinity of a given sign ([true] is positive). *)
Definition inf_of (pos : bool) : num := if pos then PInf else NInf.

Definition nneg (x : num) : num :=
  match x with
  | Fin a => Fin (- a)
  | PInf => NInf
  | NInf => PInf
  | NaN => NaN
  end.

Definition nadd (x y : num) : num :=
  match x, y with
  | Fin a, Fin b => Fin (a + b)
  | NaN, _ | _, NaN => NaN
  | PInf, NInf | NInf, PInf => NaN
  | PInf, _ | _, PInf => PInf
  | NInf, _ | _, NInf => NInf
  end.

Definition nsub (x y : num) : num :=
  match x, y with
  | Fin a, Fin b => Fin (a - b)
  | _, _ => nadd x (nneg y)
  end.

(** An infinity of sign [pos] times the finite [a]: not a number when [a]
    is zero, otherwise the infinity of the product's sign. *)
Definition inf_times (pos : bool) (a : R) : num :=
  if Reqb a 0 then NaN
  else if Rltb 0 a then inf_of pos else inf_of (negb pos).

Definition nmul (x y : num) : num :=
  match x, y with
  | Fin a, Fin b => Fin (a * b)
  | NaN, _ | _, NaN => NaN
  | PInf, Fin a | Fin a, PInf => inf_times true a
  | NInf, Fin a | Fin a, NInf => inf_times false a
  | PInf, PInf | NInf, NInf => PInf
  | PInf, NInf | NInf, PInf => NInf
  end.

Definition ndiv (x y : num) : num :=
  match x, y with
  | Fin a, Fin b =>
      if Reqb b 0 then
        (if Reqb a 0 then NaN else if Rltb 0 a then PInf else NInf)
      else Fin (a / b)
  | NaN, _ | _, NaN => NaN
  | Fin _, PInf | Fin _, NInf => Fin 0
  | PInf, Fin b => if Rltb b 0 then NInf else PInf
  | NInf, Fin b => if Rltb b 0 then PInf else NInf
  | PInf, _ | NInf, _ => NaN
  end.

(** [Math.abs], [Math.sqrt], [Math.tan], [Math.atan], [Math.round],
    [Math.max] *)

Definition nabs (x : num) : num :=
  match x with
  | Fin a => Fin (Rabs a)
  | PInf | NInf => PInf
  | NaN => NaN
  end.

Definition nsqrt (x : num) : num :=
  match x with
  | Fin a => if Rltb a 0 then NaN else Fin (sqrt a)
  | PInf => PInf
  | NInf | NaN => NaN
  end.

Definition ntan (x : num) : num :=
  match x with
  | Fin a => Fin (tan a)
  | _ => NaN
  end.

Definition natan (x : num) : num :=
  match x with
  | Fin a => Fin (atan a)
  | PInf => Fin (PI / 2)
  | NInf => Fin (- (PI / 2))
  | NaN => NaN
  end.

(** [Math.round r] is [floor (r + 0.5)]; [Int_part] is the floor. *)
Definition Rround (r : R) : R := IZR (Int_part (r + / 2)).

Definition nround (x : num) : num :=
  match x with
  | Fin a => Fin (Rround a)
  | _ => x
  end.

Definition nmax (x y : num) : num :=
  match x, y with
  | NaN, _ | _, NaN => NaN
  | PInf, _ | _, PInf => PInf
  | NInf, z | z, NInf => z
  | Fin a, Fin b => Fin (Rmax a b)
  end.

(** Comparisons: every comparison with [NaN] is false, except [!==]. *)

Definition nlt (x y : num) : bool :=
  match x, y with
  | Fin a, Fin b => Rltb a b
  | NaN, _ | _, NaN => false
  | NInf, Fin _ | NInf, PInf | Fin _, PInf => true
  | _, _ => false
  end.

Definition nle (x y : num) : bool :=
  match x, y with
  | Fin a, Fin b => Rleb a b
  | NaN, _ | _, NaN => false
  | NInf, _ | _, PInf => true
  | _, _ => false
  end.

Definition ngt (x y : num) : bool := nlt y x.
Definition nge (x y : num) : bool := nle y x.

(** [x === y] and [x !== y] on numbers *)
Definition neq (x y : num) : bool :=
  match x, y with
  | Fin a, Fin b => Reqb a b
  | PInf, PInf | NInf, NInf => true
  | _, _ => false
  end.

Definition nne (x y : num) : bool := negb (neq x y).

Infix "+" := nadd : num_scope.
Infix "-" := nsub : num_scope.
Infix "*" := nmul : num_scope.
Infix "/" := ndiv : num_scope.
Notation "- x" := (nneg x) : num_scope.
Infix "<?" := nlt : num_scope.
Infix "<=?" := nle : num_scope.
Infix ">?" := ngt : num_scope.
Infix ">=?" := nge : num_scope.
Infix "===" := neq (at level 70, no associativity) : num_scope.
Infix "!==" := nne (at level 70, no associativity) : num_scope.

(** [Math.PI] and [THREE.Math.degToRad] / [radToDeg]: a multiplication by
    the constant factor computed once. *)
Definition Math_PI : num := Fin PI.
Definition degToRad (degrees : num) : num := (degrees * (Math_PI / Fin 180))%J.
Definition radToDeg (radians : num) : num := (radians * (Fin 180 / Math_PI))%J.

(** ** three.js: the [Vector3] and [Box3] methods the source calls

    three.js is a library the source calls, not part of the repository's
    sources: these definitions follow the library.  Methods that mutate
    [this] in the library are functions returning the new value of [this];
    [clone] and [copy] are then the identity.  Normalising the zero vector
    gives the zero vector, which is what [orient] relies on when it tests
    [z.lengthSq() === 0] after [normalize()]. *)

Module THREE.

Record Vector3 : Type := V3 { x : num; y : num; z : num }.

Definition add (a v : Vector3) : Vector3 :=
  V3 (x a + x v) (y a + y v) (z a + z v).

Definition sub (a v : Vector3) : Vector3 :=
  V3 (x a - x v) (y a - y v) (z a - z v).

(** [subVectors(a, b)] stores [a - b]. *)
Definition subVectors (a b : Vector3) : Vector3 := sub a b.

Definition multiplyScalar (a : Vector3) (s : num) : Vector3 :=
  V3 (x a * s) (y a * s) (z a * s).

(** [divideScalar] multiplies by the inverse, and zeroes the vector when
    the scalar is zero. *)
Definition divideScalar (a : Vector3) (s : num) : Vector3 :=
  if (s !== Fin 0)%J then
    let invScalar := (Fin 1 / s)%J in
    V3 (x a * invScalar) (y a * invScalar) (z a * invScalar)
  else V3 (Fin 0) (Fin 0) (Fin 0).

Definition dot (a v : Vector3) : num :=
  (x a * x v + y a * y v + z a * z v)%J.

Definition lengthSq (a : Vector3) : num :=
  (x a * x a + y a * y a + z a * z a)%J.

Definition length (a : Vector3) : num := nsqrt (lengthSq a).

Definition normalize (a : Vector3) : Vector3 := divideScalar a (length a).

Definition crossVectors (a b : Vector3) : Vector3 :=
  V3 (y a * z b - z a * y b)
     (z a * x b - x a * z b)
     (x a * y b - y a * x b).

Definition cross (a v : Vector3) : Vector3 := crossVectors a v.

(** [Box3]: [empty] tests [max < min] on some axis. *)
Record Box3 : Type := B3 { bmin : Vector3; bmax : Vector3 }.

Definition empty (b : Box3) : bool :=
  (x (bmax b) <? x (bmin b))%J || (y (bmax b) <? y (bmin b))%J
  || (z (bmax b) <? z (bmin b))%J.

Definition center (b : Box3) : Vector3 :=
  multiplyScalar (add (bmin b) (bmax b)) (Fin 0.5).

Definition size (b : Box3) : Vector3 := sub (bmax b) (bmin b).

(** A vector all of whose components are finite. *)
Definition finite (a : Vector3) : bool :=
  is_fin (x a) && is_fin (y a) && is_fin (z a).

End THREE.

Abbreviation vec := THREE.Vector3.
Abbreviation V3 := THREE.V3.

(** The vector with the finite components [a], [b], [c]. *)
Definition RV (a b c : R) : vec := V3 (Fin a) (Fin b) (Fin c).

(** ** JavaScript values held in the option and lock tables *)

Inductive jsval : Type :=
| JUndefined
| JNull
| JBool (b : bool)
| JNum (n : num)
| JStr (s : string).

(** [!!v] *)
Definition truthy (v : jsval) : bool :=
  match v with
  | JUndefined | JNull => false
  | JBool b => b
  | JNum (Fin r) => negb (Reqb r 0)
  | JNum NaN => false
  | JNum _ => true
  | JStr s => negb (String.eqb s "")
  end.

(** [v === true] *)
Definition is_true (v : jsval) : bool :=
  match v with JBool true => true | _ => false end.

(** [o[k]]: reading a property the object does not have gives
    [undefined]. *)
Definition prop (o : gmap string jsval) (k : string) : jsval :=
  default JUndefined (o !! k).

(** ** The data model *)

(** The camera object, as the navigation core reads and writes it. *)
Record Camera : Type := mkCamera {
  position : vec;
  target : vec;
  pivot : vec;
  up : vec;
  worldup : vec;
  fov : num;
  isPerspective : bool;
  near : num;
  far : num;
  orthoScale : num;
  dirty : bool
}.

(** A camera as handed to [setCamera]: [target] and [pivot] may be
    missing. *)
Record CameraArg : Type := mkCameraArg {
  arg_position : vec;
  arg_target : option vec;
  arg_pivot : option vec;
  arg_up : vec;
  arg_fov : num;
  arg_isPerspective : bool;
  arg_near : num;
  arg_far : num;
  arg_orthoScale : num
}.

Record Viewport : Type := mkViewport {
  left : num; top : num; width : num; height : num
}.

(** The record stored in [__destinationView]. *)
Record DestinationView : Type := mkDestinationView {
  dv_position : vec;
  dv_coi : vec;
  dv_fov : num;
  dv_up : vec;
  dv_worldUp : vec;
  dv_reorient : bool
}.

(** The [Navigation] object: its [__]-fields, the closure variables
    [_camera] and [_viewport], and the warnings sent to [Logger.warn]. *)
Record Navigation : Type := mkNavigation {
  __options : gmap string jsval;
  __lockSettings : gmap string jsval;
  __pivotIsSetFlag : bool;
  __fitToViewRequested : bool;
  __homeViewRequested : bool;
  __transitionActive : bool;
  __destinationView : option DestinationView;
  __is2D : bool;
  __isTouchDevice : bool;
  __kEpsilon : num;
  _camera : option Camera;
  _viewport : Viewport;
  warnings : list string
}.

Definition kMinFOV : num := Fin 6.88.
Definition kMaxFOV : num := Fin 100.
Definition kEpsilon : num := Fin 0.000001.

(** Field updates *)

Definition set_options (o : gmap string jsval) (n : Navigation) : Navigation :=
  mkNavigation o (__lockSettings n) (__pivotIsSetFlag n)
    (__fitToViewRequested n) (__homeViewRequested n) (__transitionActive n)
    (__destinationView n) (__is2D n) (__isTouchDevice n) (__kEpsilon n)
    (_camera n) (_viewport n) (warnings n).

Definition set_lockSettings (l : gmap string jsval) (n : Navigation) : Navigation :=
  mkNavigation (__options n) l (__pivotIsSetFlag n)
    (__fitToViewRequested n) (__homeViewRequested n) (__transitionActive n)
    (__destinationView n) (__is2D n) (__isTouchDevice n) (__kEpsilon n)
    (_camera n) (_viewport n) (warnings n).

Definition set_pivotIsSetFlag (b : bool) (n : Navigation) : Navigation :=
  mkNavigation (__options n) (__lockSettings n) b
    (__fitToViewRequested n) (__homeViewRequested n) (__transitionActive n)
    (__destinationView n) (__is2D n) (__isTouchDevice n) (__kEpsilon n)
    (_camera n) (_viewport n) (warnings n).

Definition set_fitToViewRequested (b : bool) (n : Navigation) : Navigation :=
  mkNavigation (__options n) (__lockSettings n) (__pivotIsSetFlag n)
    b (__homeViewRequested n) (__transitionActive n)
    (__destinationView n) (__is2D n) (__isTouchDevice n) (__kEpsilon n)
    (_camera n) (_viewport n) (warnings n).

Definition set_homeViewRequested (b : bool) (n : Navigation) : Navigation :=
  mkNavigation (__options n) (__lockSettings n) (__pivotIsSetFlag n)
    (__fitToViewRequested n) b (__transitionActive n)
    (__destinationView n) (__is2D n) (__isTouchDevice n) (__kEpsilon n)
    (_camera n) (_viewport n) (warnings n).

Definition set_destinationView (d : option DestinationView) (n : Navigation)
  : Navigation :=
  mkNavigation (__options n) (__lockSettings n) (__pivotIsSetFlag n)
    (__fitToViewRequested n) (__homeViewRequested n) (__transitionActive n)
    d (__is2D n) (__isTouchDevice n) (__kEpsilon n)
    (_camera n) (_viewport n) (warnings n).

Definition set_is2D (b : bool) (n : Navigation) : Navigation :=
  mkNavigation (__options n) (__lockSettings n) (__pivotIsSetFlag n)
    (__fitToViewRequested n) (__homeViewRequested n) (__transitionActive n)
    (__destinationView n) b (__isTouchDevice n) (__kEpsilon n)
    (_camera n) (_viewport n) (warnings n).

Definition set_camera (c : option Camera) (n : Navigation) : Navigation :=
  mkNavigation (__options n) (__lockSettings n) (__pivotIsSetFlag n)
    (__fitToViewRequested n) (__homeViewRequested n) (__transitionActive n)
    (__destinationView n) (__is2D n) (__isTouchDevice n) (__kEpsilon n)
    c (_viewport n) (warnings n).

Definition set_viewport (v : Viewport) (n : Navigation) : Navigation :=
  mkNavigation (__options n) (__lockSettings n) (__pivotIsSetFlag n)
    (__fitToViewRequested n) (__homeViewRequested n) (__transitionActive n)
    (__destinationView n) (__is2D n) (__isTouchDevice n) (__kEpsilon n)
    (_camera n) v (warnings n).

(** [Logger.warn(msg)] *)
Definition warn (msg : string) (n : Navigation) : Navigation :=
  mkNavigation (__options n) (__lockSettings n) (__pivotIsSetFlag n)
    (__fitToViewRequested n) (__homeViewRequested n) (__transitionActive n)
    (__destinationView n) (__is2D n) (__isTouchDevice n) (__kEpsilon n)
    (_camera n) (_viewport n) (warnings n ++ [msg]).

Definition cam_set_position (p : vec) (c : Camera) : Camera :=
  mkCamera p (target c) (pivot c) (up c) (worldup c) (fov c)
    (isPerspective c) (near c) (far c) (orthoScale c) (dirty c).

Definition cam_set_target (t : vec) (c : Camera) : Camera :=
  mkCamera (position c) t (pivot c) (up c) (worldup c) (fov c)
    (isPerspective c) (near c) (far c) (orthoScale c) (dirty c).

Definition cam_set_pivot (p : vec) (c : Camera) : Camera :=
  mkCamera (position c) (target c) p (up c) (worldup c) (fov c)
    (isPerspective c) (near c) (far c) (orthoScale c) (dirty c).

Definition cam_set_up (u : vec) (c : Camera) : Camera :=
  mkCamera (position c) (target c) (pivot c) u (worldup c) (fov c)
    (isPerspective c) (near c) (far c) (orthoScale c) (dirty c).

Definition cam_set_dirty (d : bool) (c : Camera) : Camera :=
  mkCamera (position c) (target c) (pivot c) (up c) (worldup c) (fov c)
    (isPerspective c) (near c) (far c) (orthoScale c) d.

(** ** Construction, camera state and the option table *)

Definition origin : vec := RV 0 0 0.

(** [setCamera(camera)], for a camera other than the installed one: a
    missing [target] or [pivot] becomes the origin and [worldup] is a copy of
    the camera's [up]. *)
Definition setCamera (camera : option CameraArg) (n : Navigation) : Navigation :=
  match camera with
  | Some c =>
      set_camera
        (Some (mkCamera (arg_position c)
                 (default origin (arg_target c))
                 (default origin (arg_pivot c))
                 (arg_up c) (arg_up c) (arg_fov c) (arg_isPerspective c)
                 (arg_near c) (arg_far c) (arg_orthoScale c) true)) n
  | None => set_camera None n
  end.

(** The tables the constructor creates. *)
Definition initial_options : gmap string jsval :=
  {[ "dollyToPivot" := JBool false;
     "orbitPastPoles" := JBool true;
     "reverseDolly" := JBool false;
     "reverseHorizontalLook" := JBool false;
     "reverseVerticalLook" := JBool false;
     "useLeftHandedInput" := JBool false;
     "usePivotAlways" := JBool false;
     "lockNavigation" := JBool false ]}.

Definition initial_lockSettings : gmap string jsval :=
  {[ "orbit" := JBool false;
     "pan" := JBool false;
     "zoom" := JBool false;
     "roll" := JBool false;
     "fov" := JBool false;
     "gotoview" := JBool false;
     "walk" := JBool false ]}.

(** [new Navigation(camera)] *)
Definition Navigation_new (camera : option CameraArg) : Navigation :=
  setCamera camera
    (mkNavigation initial_options initial_lockSettings
       false false false false None false false kEpsilon
       None (mkViewport (Fin 0) (Fin 0) (Fin 1) (Fin 1)) []).

Definition getCamera (n : Navigation) : option Camera := _camera n.

Definition setScreenViewport (viewport : Viewport) (n : Navigation) : Navigation :=
  set_viewport viewport n.

Definition getScreenViewport (n : Navigation) : Viewport := _viewport n.

Definition __getUp (n : Navigation) : vec :=
  match _camera n with
  | Some c => worldup c
  | None => RV 0 1 0
  end.

Definition getWorldUpVector (n : Navigation) : vec := __getUp n.

Definition setView (position target : vec) (n : Navigation) : Navigation :=
  match _camera n with
  | Some c =>
      set_camera
        (Some (cam_set_dirty true
                 (cam_set_target target (cam_set_position position c)))) n
  | None => n
  end.

Definition getPivotPoint (n : Navigation) : vec :=
  match _camera n with Some c => pivot c | None => RV 0 0 0 end.

Definition setPivotPoint (pivot : vec) (n : Navigation) : Navigation :=
  match _camera n with
  | Some c => set_camera (Some (cam_set_dirty true (cam_set_pivot pivot c))) n
  | None => n
  end.

Definition getPosition (n : Navigation) : vec :=
  match _camera n with Some c => position c | None => RV 0 0 1 end.

Definition setPosition (pos : vec) (n : Navigation) : Navigation :=
  match _camera n with
  | Some c => set_camera (Some (cam_set_dirty true (cam_set_position pos c))) n
  | None => n
  end.

Definition setTarget (target : vec) (n : Navigation) : Navigation :=
  match _camera n with
  | Some c => set_camera (Some (cam_set_dirty true (cam_set_target target c))) n
  | None => n
  end.

Definition getTarget (n : Navigation) : vec :=
  match _camera n with Some c => target c | None => RV 0 0 0 end.

Definition getEyeVector (n : Navigation) : vec :=
  match _camera n with
  | Some c => THREE.sub (target c) (position c)
  | None => RV 0 0 (-1)
  end.

Definition getFovMin (n : Navigation) : num := kMinFOV.
Definition getFovMax (n : Navigation) : num := kMaxFOV.

Definition setIs2D (state : jsval) (n : Navigation) : Navigation :=
  set_is2D (truthy state) n.

Definition getIs2D (n : Navigation) : bool := __is2D n.

(** [getCamera().fov]: a [TypeError] ([None]) without a camera. *)
Definition getVerticalFov (n : Navigation) : option num :=
  c ← getCamera n; Some (fov c).

(** ** The option setters and getters *)

Definition setReverseZoomDirection (state : jsval) (n : Navigation) : Navigation :=
  set_options (<["reverseDolly" := JBool (truthy state)]> (__options n)) n.

Definition getReverseZoomDirection (n : Navigation) : jsval :=
  prop (__options n) "reverseDolly".

Definition setReverseHorizontalLookDirection (state : jsval) (n : Navigation)
  : Navigation :=
  if getIs2D n then
    warn "Autodesk.Viewing.Navigation.setReverseHorizontalLookDirection is not applicable to 2D" n
  else
    set_options
      (<["reverseHorizontalLookDirection" := JBool (truthy state)]> (__options n)) n.

Definition setReverseVerticalLookDirection (state : jsval) (n : Navigation)
  : Navigation :=
  if getIs2D n then
    warn "Autodesk.Viewing.Navigation.setReverseVerticalLookDirection is not applicable to 2D" n
  else
    set_options
      (<["reverseVerticalLookDirection" := JBool (truthy state)]> (__options n)) n.

(** The getters return the value and the object (a warning may have been
    logged). *)
Definition getReverseHorizontalLookDirection (n : Navigation) : jsval * Navigation :=
  if getIs2D n then
    (JBool false,
     warn "Autodesk.Viewing.Navigation.getReverseHorizontalLookDirection is not applicable to 2D" n)
  else (prop (__options n) "reverseHorizontalLookDirection", n).

Definition getReverseVerticalLookDirection (n : Navigation) : jsval * Navigation :=
  if getIs2D n then
    (JBool false,
     warn "Autodesk.Viewing.Navigation.getReverseVerticalLookDirection is not applicable to 2D" n)
  else (prop (__options n) "reverseVerticalLookDirection", n).

Definition setOrbitPastWorldPoles (state : jsval) (n : Navigation) : Navigation :=
  if getIs2D n then
    warn "Autodesk.Viewing.Navigation.setOrbitPastWorldPoles is not applicable to 2D" n
  else set_options (<["orbitPastPoles" := JBool (truthy state)]> (__options n)) n.

Definition getOrbitPastWorldPoles (n : Navigation) : jsval * Navigation :=
  if getIs2D n then
    (JBool false,
     warn "Autodesk.Viewing.Navigation.orbitPastWorldPoles is not applicable to 2D" n)
  else (prop (__options n) "orbitPastPoles", n).

(** ** The lock system *)

Definition setIsLocked (state : jsval) (n : Navigation) : Navigation :=
  set_options (<["lockNavigation" := JBool (truthy state)]> (__options n)) n.

Definition getIsLocked (n : Navigation) : jsval :=
  prop (__options n) "lockNavigation".

(** [setLockSettings(settings)]: every action of the lock table that
    [settings] has as an own property takes its value from [settings]. *)
Definition setLockSettings (settings : gmap string jsval) (n : Navigation)
  : Navigation :=
  set_lockSettings
    (map_imap (fun action old => Some (default old (settings !! action)))
       (__lockSettings n)) n.

Definition getLockSettings (n : Navigation) : gmap string jsval :=
  __lockSettings n.

Definition isActionEnabled (action : string) (n : Navigation) : bool :=
  negb (truthy (prop (__options n) "lockNavigation"))
  || is_true (prop (__lockSettings n) action).

(** The seven action names of the lock table. *)
Definition actions : list string :=
  ["orbit"; "pan"; "zoom"; "roll"; "fov"; "gotoview"; "walk"].

Definition setPivotSetFlag (state : jsval) (n : Navigation) : Navigation :=
  set_pivotIsSetFlag (truthy state) n.

Definition getPivotSetFlag (n : Navigation) : bool := __pivotIsSetFlag n.

(** ** View-change requests *)

Definition setRequestFitToView (state : jsval) (n : Navigation) : Navigation :=
  if isActionEnabled "gotoview" n then set_fitToViewRequested (truthy state) n
  else n.

Definition getRequestFitToView (n : Navigation) : bool := __fitToViewRequested n.

Definition setRequestHomeView (state : jsval) (n : Navigation) : Navigation :=
  if isActionEnabled "gotoview" n then set_homeViewRequested (truthy state) n
  else n.

Definition getRequestHomeView (n : Navigation) : bool := __homeViewRequested n.

(** [setRequestTransition]: [None] is the [TypeError] of
    [this.getCamera().up] without a camera. *)
Definition setRequestTransition (state : jsval) (pos coi : vec) (fov : num)
    (reorient : bool) (n : Navigation) : option Navigation :=
  if truthy state then
    c ← getCamera n;
    Some (set_destinationView
            (Some (mkDestinationView pos coi fov (up c) (getWorldUpVector n)
                     reorient)) n)
  else Some (set_destinationView None n).

Definition setRequestTransitionWithUp (state : jsval) (pos coi : vec) (fov : num)
    (up : vec) (worldUp : option vec) (n : Navigation) : option Navigation :=
  if truthy state then
    Some (set_destinationView
            (Some (mkDestinationView pos coi fov up
                     (match worldUp with
                      | Some w => w
                      | None => getWorldUpVector n
                      end)
                     false)) n)
  else Some (set_destinationView None n).

Definition getRequestTransition (n : Navigation) : option DestinationView :=
  __destinationView n.

(** ** Fit to view *)

Record Fit : Type := mkFit { fit_position : vec; fit_target : vec }.

Definition computeFit (oldpos oldcoi : vec) (fov : num)
    (bounds : option THREE.Box3) (n : Navigation) : Fit :=
  match bounds with
  | None => mkFit oldpos oldcoi
  | Some b =>
      if THREE.empty b then mkFit oldpos oldcoi
      else
        let coi := THREE.center b in
        let size := THREE.size b in
        let radius :=
          (Fin 0.5 * nsqrt (THREE.x size * THREE.x size
                            + THREE.y size * THREE.y size
                            + THREE.z size * THREE.z size))%J in
        let radius := if (radius === Fin 0)%J then Fin 1 else radius in
        let radius :=
          if negb (getIs2D n) then
            let fovFudge := nmax (Fin 1) (Fin 0.9 + fov / kMaxFOV * Fin 0.5)%J in
            (radius * fovFudge)%J
          else radius in
        let eye := THREE.normalize (THREE.sub oldpos oldcoi) in
        let fitToViewDistance :=
          (radius / ntan (degToRad (fov * Fin 0.5)))%J in
        let eye := THREE.multiplyScalar eye fitToViewDistance in
        let pos := THREE.add coi eye in
        mkFit pos coi
  end.

Definition computeOrthogonalUp (pos coi : vec) (n : Navigation) : vec :=
  let worldUp := __getUp n in
  let eye := THREE.sub coi pos in
  if (THREE.lengthSq eye === Fin 0)%J then worldUp
  else
    let right := THREE.cross eye worldUp in
    if (THREE.lengthSq right === Fin 0)%J then
      let eye :=
        if (THREE.z worldUp >? THREE.y worldUp)%J
        then V3 (THREE.x eye) (THREE.y eye - Fin 0.0001) (THREE.z eye)
        else V3 (THREE.x eye) (THREE.y eye) (THREE.z eye - Fin 0.0001) in
      let right := THREE.crossVectors eye worldUp in
      THREE.normalize (THREE.cross right eye)
    else THREE.normalize (THREE.cross right eye).

(** [fitBounds(immediate, bounds, reorient)] returns the fit and the new
    state; [None] is a [TypeError] (no camera). *)
Definition fitBounds (immediate : bool) (bounds : option THREE.Box3)
    (reorient : bool) (n : Navigation) : option (Fit * Navigation) :=
  let oldcoi := getTarget n in
  let pos := getPosition n in
  if negb (isActionEnabled "gotoview" n)
     || match bounds with None => true | Some b => THREE.empty b end
  then Some (mkFit pos oldcoi, n)
  else
    fov ← getVerticalFov n;
    let fit := computeFit pos oldcoi fov bounds n in
    c ← _camera n;
    let up := if reorient then computeOrthogonalUp pos oldcoi n else up c in
    n1 ← (if immediate then
            Some (setView (fit_position fit) (fit_target fit)
                    (set_camera (Some (cam_set_up up c)) n))
          else
            setRequestTransitionWithUp (JBool true) (fit_position fit)
              (fit_target fit) fov up None n);
    Some (fit, setPivotSetFlag (JBool true) (setPivotPoint (fit_target fit) n1)).

(** ** Orientation *)

(** The axes [orient] writes into the columns of the rotation matrix given
    to [object.setRotationFromMatrix]. *)
Record Basis : Type := mkBasis { bx : vec; by_ : vec; bz : vec }.

Definition orient (target from up : vec) : Basis :=
  let z := THREE.normalize (THREE.subVectors from target) in
  let z :=
    if (THREE.lengthSq z === Fin 0)%J
    then V3 (THREE.x z) (THREE.y z) (Fin 1) else z in
  let x := THREE.normalize (THREE.crossVectors up z) in
  if (THREE.lengthSq x === Fin 0)%J then
    let z :=
      if (THREE.z up >? THREE.y up)%J
      then V3 (THREE.x z) (THREE.y z - Fin 0.0001) (THREE.z z)
      else V3 (THREE.x z) (THREE.y z) (THREE.z z + Fin 0.0001) in
    let x := THREE.normalize (THREE.crossVectors up z) in
    mkBasis x (THREE.crossVectors z x) z
  else mkBasis x (THREE.crossVectors z x) z.

(** ** Field of view and focal length *)

Definition fov2fl (fov : num) : num :=
  let k35mmVerticalCameraBackSize := Fin 12 in
  let rads := degToRad fov in
  let rads := if (rads <=? Fin 0)%J then Fin 0.0001 else rads in
  nround (k35mmVerticalCameraBackSize / ntan (rads * Fin 0.5))%J.

Definition fl2fov (fl : num) : num :=
  let k35mmVerticalCameraBackSize := Fin 12 in
  let fl := if (fl <=? Fin 0)%J then Fin 0.0001 else fl in
  let rads := (Fin 2 * natan (k35mmVerticalCameraBackSize / fl))%J in
  radToDeg rads.

(** ** Camera axes *)

Definition getCameraRightVector (worldAligned : bool) (n : Navigation)
  : option vec :=
  up ← (if worldAligned then Some (getWorldUpVector n)
        else c ← getCamera n; Some (up c));
  let eye := getEyeVector n in
  let right := THREE.crossVectors eye up in
  if (THREE.lengthSq right === Fin 0)%J then
    let eye :=
      if (THREE.z up >? THREE.y up)%J
      then V3 (THREE.x eye) (THREE.y eye - Fin 0.0001) (THREE.z eye)
      else V3 (THREE.x eye) (THREE.y eye) (THREE.z eye + Fin 0.0001) in
    Some (THREE.normalize (THREE.crossVectors eye up))
  else Some (THREE.normalize right).

Definition getCameraUpVector (n : Navigation) : option vec :=
  right ← getCameraRightVector false n;
  let eye := getEyeVector n in
  Some (THREE.normalize (THREE.cross right eye)).

Definition getAlignedUpVector (n : Navigation) : option vec :=
  right ← getCameraRightVector true n;
  let eye := getEyeVector n in
  Some (THREE.normalize (THREE.cross right eye)).

(** [getWorldRightVector]: [right] starts as a copy of the world up, is
    [set] in one of three branches ([right_set] is its value then) and is
    normalised on return. *)
Definition right_set (right : vec) : vec :=
  if (nabs (THREE.z right) <=? nabs (THREE.y right))%J then
    V3 (THREE.y right) (- THREE.x right)%J (Fin 0)
  else if (THREE.z right >=? Fin 0)%J then
    V3 (THREE.z right) (Fin 0) (- THREE.x right)%J
  else
    V3 (- THREE.z right)%J (Fin 0) (THREE.x right).

Definition getWorldRightVector (n : Navigation) : vec :=
  let right := __getUp n in
  let right := right_set right in
  THREE.normalize right.

(** ** Pan and dolly *)

(** [getWorldSize(atDistance)]: the pair is the [Vector2]
    [(worldWidth, worldHeight)]. *)
Definition getWorldSize (atDistance : num) (n : Navigation) : option (num * num) :=
  let viewport := getScreenViewport n in
  let aspect := (width viewport / height viewport)%J in
  c ← getCamera n;
  let worldHeight :=
    (Fin 2 * atDistance * ntan (degToRad (fov c * Fin 0.5)))%J in
  let worldWidth := (worldHeight * aspect)%J in
  Some (worldWidth, worldHeight).

Definition panRelative (deltaX deltaY atDistance : num) (n : Navigation)
  : option Navigation :=
  if negb (isActionEnabled "pan" n) then Some n
  else
    trackSpeed ← getWorldSize atDistance n;
    let offsetX := (deltaX * fst trackSpeed)%J in
    let offsetY := (deltaY * snd trackSpeed)%J in
    right ← getCameraRightVector false n;
    let trackX := THREE.multiplyScalar right offsetX in
    upv ← getCameraUpVector n;
    let trackY := THREE.multiplyScalar upv offsetY in
    let offsetVector := THREE.add trackX trackY in
    Some (setView (THREE.add (getPosition n) offsetVector)
            (THREE.add (getTarget n) offsetVector) n).

Definition dollyFromPoint (distance : num) (point : vec) (n : Navigation)
  : option Navigation :=
  if negb (isActionEnabled "zoom" n) || (nabs distance <=? __kEpsilon n)%J
  then Some n
  else
    let position := getPosition n in
    let dollyVec := THREE.sub point position in
    let oldLength := THREE.length dollyVec in
    let newLength := (oldLength + distance)%J in
    let kMinDistance := (__kEpsilon n * Fin 10)%J in
    let newLength :=
      if (newLength <? kMinDistance)%J then kMinDistance else newLength in
    let scaleFactor := (newLength / oldLength)%J in
    if (nabs (scaleFactor - Fin 1) >? __kEpsilon n)%J then
      let dollyVec := THREE.multiplyScalar dollyVec scaleFactor in
      let dollyVec :=
        V3 (- THREE.x dollyVec)%J (- THREE.y dollyVec)%J (- THREE.z dollyVec)%J in
      let newPosition := THREE.add dollyVec point in
      let viewVec := getEyeVector n in
      c ← getCamera n;
      let viewVec :=
        if negb (isPerspective c) then THREE.multiplyScalar viewVec scaleFactor
        else viewVec in
      Some (setView newPosition (THREE.add viewVec newPosition) n)
    else Some n.

(** ** The remaining option setters, the world up and the camera up *)

Definition set_transitionActive (b : bool) (n : Navigation) : Navigation :=
  mkNavigation (__options n) (__lockSettings n) (__pivotIsSetFlag n)
    (__fitToViewRequested n) (__homeViewRequested n) b
    (__destinationView n) (__is2D n) (__isTouchDevice n) (__kEpsilon n)
    (_camera n) (_viewport n) (warnings n).

Definition cam_set_worldup (w : vec) (c : Camera) : Camera :=
  mkCamera (position c) (target c) (pivot c) (up c) w (fov c)
    (isPerspective c) (near c) (far c) (orthoScale c) (dirty c).

Definition cam_set_fov (f : num) (c : Camera) : Camera :=
  mkCamera (position c) (target c) (pivot c) (up c) (worldup c) f
    (isPerspective c) (near c) (far c) (orthoScale c) (dirty c).

Definition uninitialize (n : Navigation) : Navigation := setCamera None n.

Definition setZoomTowardsPivot (state : jsval) (n : Navigation) : Navigation :=
  set_options (<["dollyToPivot" := JBool (truthy state)]> (__options n)) n.

Definition getZoomTowardsPivot (n : Navigation) : jsval :=
  prop (__options n) "dollyToPivot".

Definition setUsePivotAlways (state : jsval) (n : Navigation) : Navigation :=
  set_options (<["usePivotAlways" := JBool (truthy state)]> (__options n)) n.

Definition getUsePivotAlways (n : Navigation) : jsval :=
  prop (__options n) "usePivotAlways".

Definition setUseLeftHandedInput (state : jsval) (n : Navigation) : Navigation :=
  set_options (<["useLeftHandedInput" := JBool (truthy state)]> (__options n)) n.

Definition getUseLeftHandedInput (n : Navigation) : jsval :=
  prop (__options n) "useLeftHandedInput".

Definition setTransitionActive (state : jsval) (n : Navigation) : Navigation :=
  set_transitionActive (truthy state) n.

Definition getTransitionActive (n : Navigation) : bool := __transitionActive n.

(** [__setUp(up)]: the returned pair is the boolean result and the new
    state; [up] may be [null]. *)
Definition __setUp (up : option vec) (n : Navigation) : bool * Navigation :=
  match up, _camera n with
  | Some u, Some c =>
      let upCheck := THREE.normalize u in
      let diff := THREE.sub upCheck (worldup c) in
      if (THREE.lengthSq diff !== Fin 0)%J then
        (true,
         set_camera
           (Some (cam_set_dirty true (cam_set_worldup (THREE.normalize u) c))) n)
      else (false, n)
  | _, _ => (false, n)
  end.

(** [orientCameraUp()] *)
Definition orientCameraUp (n : Navigation) : option Navigation :=
  match _camera n with
  | Some c =>
      if isActionEnabled "roll" n then
        aligned ← getAlignedUpVector n;
        Some (set_camera (Some (cam_set_dirty true (cam_set_up aligned c))) n)
      else Some n
  | None => Some n
  end.

(** [setCameraUpVector(up)]: [None] is the [TypeError] of [camera.up]
    without a camera. *)
Definition setCameraUpVector (up : vec) (n : Navigation) : option Navigation :=
  if isActionEnabled "roll" n then
    camera ← getCamera n;
    Some (set_camera (Some (cam_set_dirty true (cam_set_up up camera))) n)
  else Some n.

Definition setWorldUpVector (up : option vec) (reorient : bool) (n : Navigation)
  : option Navigation :=
  if isActionEnabled "roll" n then
    let n1 := snd (__setUp up n) in
    if reorient then orientCameraUp n1 else Some n1
  else Some n.

(** ** Field of view of the camera *)

Definition getHorizontalFov (n : Navigation) : option num :=
  let viewport := getScreenViewport n in
  c ← getCamera n;
  Some (fov c * (width viewport / height viewport))%J.

Definition getFocalLength (n : Navigation) : option num :=
  f ← getVerticalFov n; Some (fov2fl f).

Definition getPivotPlaneDistance (n : Navigation) : num :=
  let pivot := getPivotPoint n in
  let view := getEyeVector n in
  let position := getPosition n in
  THREE.dot (THREE.sub pivot position) (THREE.normalize view).

(** [Navigation.snapToAxis(v)] *)
Definition snapToAxis (v : vec) : vec :=
  let absv := V3 (nabs (THREE.x v)) (nabs (THREE.y v)) (nabs (THREE.z v)) in
  if (THREE.x absv >? THREE.y absv)%J && (THREE.x absv >? THREE.z absv)%J then
    V3 (if (THREE.x v >? Fin 0)%J then Fin 1 else Fin (-1)) (Fin 0) (Fin 0)
  else if (THREE.y absv >? THREE.x absv)%J && (THREE.y absv >? THREE.z absv)%J then
    V3 (Fin 0) (if (THREE.y v >? Fin 0)%J then Fin 1 else Fin (-1)) (Fin 0)
  else
    V3 (Fin 0) (Fin 0) (if (THREE.z v >? Fin 0)%J then Fin 1 else Fin (-1)).

(** [isNaN(x)] on a number *)
Definition nisNaN (x : num) : bool :=
  match x with NaN => true | _ => false end.

(** Modelled from the spec: [camera.setFov(fov)] is a method of the camera
    class, which is not among the sources; it is taken to store [fov] as the
    camera's vertical field of view. *)
Definition camera_setFov (fov' : num) (c : Camera) : Camera := cam_set_fov fov' c.

(** [isPointVisible] and [getWorldPoint] reach into the camera's
    projection matrices, which are not part of the camera record: the
    frustum test and [Vector3.unproject] are taken as parameters. *)
Section Projection.

Variable isPointVisible : Camera -> vec -> bool.
Variable unproject : Camera -> vec -> vec.

Definition setVerticalFov (fov' : num) (adjustPosition : bool) (n : Navigation)
  : Navigation :=
  match _camera n with
  | None => n
  | Some c =>
      if negb (isPerspective c) then n
      else
        let fov' :=
          if (fov' <? kMinFOV)%J then kMinFOV
          else if (fov' >? kMaxFOV)%J then kMaxFOV else fov' in
        if isActionEnabled "fov" n then
          if (nabs (fov c - fov') <=? kEpsilon)%J then n
          else
            let n1 :=
              if adjustPosition then
                let usePivot :=
                  __pivotIsSetFlag n && isPointVisible c (getPivotPoint n) in
                let pos := getPosition n in
                let eye := getEyeVector n in
                let oldFOV := degToRad (fov c) in
                let newFOV := degToRad fov' in
                let oldDistance :=
                  if usePivot then getPivotPlaneDistance n
                  else THREE.length eye in
                let newDistance :=
                  (oldDistance * ntan (oldFOV * Fin 0.5)
                   / ntan (newFOV * Fin 0.5))%J in
                let delta :=
                  THREE.multiplyScalar (THREE.normalize eye)
                    (oldDistance - newDistance)%J in
                let n1 := setPosition (THREE.add pos delta) n in
                if usePivot then setTarget (THREE.add (getTarget n1) delta) n1
                else n1
              else n in
            match _camera n1 with
            | Some c1 =>
                set_camera (Some (cam_set_dirty true (camera_setFov fov' c1))) n1
            | None => n1
            end
        else n
  end.

Definition setFocalLength (millimeters : num) (adjustPosition : bool)
    (n : Navigation) : Navigation :=
  setVerticalFov (fl2fov millimeters) adjustPosition n.

(** [getWorldPoint(x, y)]: [None] is the [TypeError] of
    [camera.isPerspective] without a camera. *)
Definition getWorldPoint (x y : num) (n : Navigation) : option vec :=
  let y := (Fin 1 - y)%J in
  let x := (x * Fin 2 - Fin 1)%J in
  let y := (y * Fin 2 - Fin 1)%J in
  camera ← getCamera n;
  let clickPoint :=
    if isPerspective camera then unproject camera (V3 x y (Fin 1))
    else V3 NaN NaN NaN in
  let view := getEyeVector n in
  let position := getPosition n in
  direction ←
    (if negb (isPerspective camera) || nisNaN (THREE.x clickPoint) then
       xysize ← getWorldSize (THREE.length view) n;
       right ← getCameraRightVector false n;
       let trackX :=
         THREE.multiplyScalar right (x * Fin 0.5 * fst xysize)%J in
       upv ← getCameraUpVector n;
       let trackY :=
         THREE.multiplyScalar upv (y * Fin 0.5 * snd xysize)%J in
       Some (THREE.normalize (THREE.add (THREE.add view trackX) trackY))
     else Some (THREE.normalize (THREE.sub clickPoint position)));
  let pivot := getPivotPoint n in
  let usePivot :=
    __pivotIsSetFlag n
    && (getIs2D n || (isPerspective camera && isPointVisible camera pivot)) in
  let distance :=
    if usePivot then
      let denominator := THREE.dot direction view in
      if (denominator !== Fin 0)%J
      then (nabs (THREE.dot (THREE.sub pivot position) view) / denominator)%J
      else THREE.length (THREE.sub pivot position)
    else if isPerspective camera then ((near camera + far camera) * Fin 0.5)%J
         else orthoScale camera in
  Some (THREE.add (THREE.multiplyScalar direction distance) position).

End Projection.

(** ** Reference definitions, worded as the specification words them *)

(** The fit as the specification describes it.  Absent or empty bounds
    give the inputs back.  Otherwise the target is the centre of the bounds,
    the radius is half the length of their diagonal, floored to 1.0 when that
    length is zero and, when [fudge] holds, multiplied by
    [max(1.0, 0.9 + fov/100*0.5)]; the position is the target plus the
    normalised [oldpos - oldcoi] times [radius / tan(radians(fov)/2)]. *)
Definition computeFit_reference (fudge : bool) (oldpos oldcoi : vec) (fov : num)
    (bounds : option THREE.Box3) : Fit :=
  match bounds with
  | None => mkFit oldpos oldcoi
  | Some b =>
      if THREE.empty b then mkFit oldpos oldcoi
      else
        let target := THREE.center b in
        let diagonal := THREE.length (THREE.size b) in
        let radius :=
          if (diagonal === Fin 0)%J then Fin 1 else (diagonal / Fin 2)%J in
        let radius' :=
          if fudge
          then (radius * nmax (Fin 1) (Fin 0.9 + fov / Fin 100 * Fin 0.5))%J
          else radius in
        let distance := (radius' / ntan (degToRad fov / Fin 2))%J in
        let direction := THREE.normalize (THREE.sub oldpos oldcoi) in
        mkFit (THREE.add target (THREE.multiplyScalar direction distance))
          target
  end.

(** Whether the view is non-2D and the camera is perspective. *)
Definition perspective_3D (n : Navigation) : bool :=
  negb (getIs2D n)
  && match getCamera n with
     | Some c => isPerspective c
     | None => false
     end.

(** [fov2fl] as the specification describes it: the angle in radians,
    clamped by [clamp], halved, and the focal length rounded. *)
Definition fov2fl_reference (clamp : num -> num) (fov : num) : num :=
  nround (Fin 12 / ntan (clamp (degToRad fov) / Fin 2))%J.

(** Clamping to a minimum of 1e-4: anything below 1e-4 becomes 1e-4. *)
Definition clamp_min (rads : num) : num :=
  if (rads <? Fin 0.0001)%J then Fin 0.0001 else rads.

(** Replacing only an angle that is zero or negative by 1e-4. *)
Definition clamp_nonpositive (rads : num) : num :=
  if (rads <=? Fin 0)%J then Fin 0.0001 else rads.

(** ** Sample states *)

(** A perspective camera at [(0,0,10)] looking at the origin, and the
    camera object [setCamera] makes of it. *)
Definition camera0 : CameraArg :=
  mkCameraArg (RV 0 0 10) (Some (RV 0 0 0)) (Some (RV 0 0 0)) (RV 0 1 0)
    (Fin 60) true (Fin 1) (Fin 1000) (Fin 1).

Definition installed0 : Camera :=
  mkCamera (RV 0 0 10) (RV 0 0 0) (RV 0 0 0) (RV 0 1 0) (RV 0 1 0)
    (Fin 60) true (Fin 1) (Fin 1000) (Fin 1) true.

(** A fresh object on [camera0], and the same object once locked. *)
Definition nav0 : Navigation := Navigation_new (Some camera0).
Definition locked0 : Navigation := setIsLocked (JBool true) nav0.

(** An orthographic camera (not 2D) at [(0,0,10)] looking at the
    origin. *)
Definition camera_ortho : CameraArg :=
  mkCameraArg (RV 0 0 10) (Some (RV 0 0 0)) (Some (RV 0 0 0)) (RV 0 1 0)
    (Fin 90) false (Fin 1) (Fin 1000) (Fin 1).

Definition nav_ortho : Navigation := Navigation_new (Some camera_ortho).

(** The object on [camera0] once its viewport has been given a height of
    zero, and a fresh object on a camera whose up vector has an infinite
    component. *)
Definition nav_flat : Navigation :=
  setScreenViewport (mkViewport (Fin 0) (Fin 0) (Fin 1) (Fin 0)) nav0.

Definition camera_infinite_up : CameraArg :=
  mkCameraArg (RV 0 0 10) (Some (RV 0 0 0)) (Some (RV 0 0 0))
    (V3 PInf (Fin 0) (Fin 0)) (Fin 60) true (Fin 1) (Fin 1000) (Fin 1).

Definition nav_infinite_up : Navigation := Navigation_new (Some camera_infinite_up).

(** The box from [(0,0,0)] to [(2,0,0)]. *)
Definition box0 : THREE.Box3 := THREE.B3 (RV 0 0 0) (RV 2 0 0).

(** * Properties *)

(** ** Boolean comparisons on the reals *)

Lemma Rltb_true a b : a < b -> Rltb a b = true.
Proof. intros H. unfold Rltb. destruct (Rlt_dec a b); [reflexivity | contradiction]. Qed.

Lemma Rltb_false a b : b <= a -> Rltb a b = false.
Proof. intros H. unfold Rltb. destruct (Rlt_dec a b); [lra | reflexivity]. Qed.

Lemma Rleb_true a b : a <= b -> Rleb a b = true.
Proof. intros H. unfold Rleb. destruct (Rle_dec a b); [reflexivity | contradiction]. Qed.

Lemma Rleb_false a b : b < a -> Rleb a b = false.
Proof. intros H. unfold Rleb. destruct (Rle_dec a b); [lra | reflexivity]. Qed.

Lemma Reqb_true a b : a = b -> Reqb a b = true.
Proof. intros H. unfold Reqb. destruct (Req_dec_T a b); [reflexivity | contradiction]. Qed.

Lemma Reqb_false a b : a <> b -> Reqb a b = false.
Proof. intros H. unfold Reqb. destruct (Req_dec_T a b); [contradiction | reflexivity]. Qed.

Lemma Rltb_spec a b : Rltb a b = true <-> a < b.
Proof. unfold Rltb. destruct (Rlt_dec a b); split; intros; try discriminate; tauto. Qed.

Lemma Rleb_spec a b : Rleb a b = true <-> a <= b.
Proof. unfold Rleb. destruct (Rle_dec a b); split; intros; try discriminate; tauto. Qed.

Lemma Reqb_spec a b : Reqb a b = true <-> a = b.
Proof. unfold Reqb. destruct (Req_dec_T a b); split; intros; try discriminate; tauto. Qed.

(** ** The lock system *)

Section Locks.

Lemma isActionEnabled_unfold (action : string) (n : Navigation) :
  isActionEnabled action n
  = negb (truthy (getIsLocked n)) || is_true (prop (__lockSettings n) action).
Proof. reflexivity. Qed.

Lemma is_true_spec (v : jsval) : is_true v = true <-> v = JBool true.
Proof.
  split; [| intros ->; reflexivity].
  destruct v as [| | [|] | |]; simpl; intros H; try discriminate; reflexivity.
Qed.

(** What the gate computes, for a lock option holding a boolean. *)
Lemma isActionEnabled_iff (action : string) (n : Navigation) (lock : bool) :
  getIsLocked n = JBool lock ->
  isActionEnabled action n = true
  <-> lock = false \/ prop (__lockSettings n) action = JBool true.
Proof.
  intros Hlock. rewrite isActionEnabled_unfold, Hlock. simpl.
  rewrite orb_true_iff, negb_true_iff, is_true_spec. reflexivity.
Qed.

(** The option and lock tables do not depend on the camera. *)
Lemma options_new (camera : option CameraArg) :
  __options (Navigation_new camera) = initial_options.
Proof. destruct camera; reflexivity. Qed.

Lemma lockSettings_new (camera : option CameraArg) :
  __lockSettings (Navigation_new camera) = initial_lockSettings.
Proof. destruct camera; reflexivity. Qed.

Lemma getIsLocked_setIsLocked (state : jsval) (n : Navigation) :
  getIsLocked (setIsLocked state n) = JBool (truthy state).
Proof.
  unfold getIsLocked, setIsLocked, prop. simpl.
  rewrite lookup_insert_eq. reflexivity.
Qed.

Lemma getIsLocked_setLockSettings (settings : gmap string jsval) (n : Navigation) :
  getIsLocked (setLockSettings settings n) = getIsLocked n.
Proof. reflexivity. Qed.

Lemma lockSettings_setIsLocked (state : jsval) (n : Navigation) :
  __lockSettings (setIsLocked state n) = __lockSettings n.
Proof. reflexivity. Qed.

(** No entry of the initial lock table is [true]. *)
Lemma initial_lockSettings_false (action : string) :
  is_true (prop initial_lockSettings action) = false.
Proof.
  unfold prop, initial_lockSettings.
  repeat (rewrite lookup_insert; case_decide; [reflexivity |]).
  rewrite lookup_singleton. case_decide; reflexivity.
Qed.

(** After [setLockSettings({pan: true})] on the initial table, the entry
    of [pan], and only that one, is [true]. *)
Lemma pan_only (action : string) :
  is_true
    (prop (map_imap
             (fun a old =>
                Some (default old (({["pan" := JBool true]} : gmap string jsval) !! a)))
             initial_lockSettings) action) = true
  <-> action = "pan".
Proof.
  unfold prop. rewrite map_lookup_imap.
  destruct (decide (action = "pan")) as [-> | Hne].
  - split; [reflexivity | intros _; vm_compute; reflexivity].
  - split; [| contradiction].
    rewrite lookup_singleton_ne by congruence.
    destruct (initial_lockSettings !! action) as [v |] eqn:E; simpl.
    + pose proof (initial_lockSettings_false action) as H.
      unfold prop in H. rewrite E in H. simpl in H. congruence.
    + discriminate.
Qed.

End Locks.

(** C1.  [isActionEnabled(a)] is true exactly when the [lockNavigation]
    option is false or the lock-settings entry of [a] is exactly [true]
    (this holds for every name, in particular for the seven actions).
    Consequently: with [lockNavigation] false every action is enabled; on a
    freshly constructed object that is then locked every action is disabled;
    and when, after locking, [setLockSettings({pan: true})] is applied, the
    action ['pan'] and no other is enabled. *)
Theorem isActionEnabled_correct :
  (forall (n : Navigation) (lock : bool) (a : string),
      getIsLocked n = JBool lock -> In a actions ->
      (isActionEnabled a n = true
       <-> lock = false \/ prop (__lockSettings n) a = JBool true))
  /\ (forall (n : Navigation) (a : string),
         getIsLocked n = JBool false -> In a actions ->
         isActionEnabled a n = true)
  /\ (forall (camera : option CameraArg) (a : string),
         In a actions ->
         isActionEnabled a (setIsLocked (JBool true) (Navigation_new camera))
         = false)
  /\ (forall (camera : option CameraArg) (a : string),
         In a actions ->
         (isActionEnabled a
            (setLockSettings {["pan" := JBool true]}
               (setIsLocked (JBool true) (Navigation_new camera))) = true
          <-> a = "pan")).
Proof.
  split; [| split; [| split]].
  - intros n lock a Hlock _. apply (isActionEnabled_iff a n lock Hlock).
  - intros n a Hlock _. apply (isActionEnabled_iff a n false Hlock).
    left. reflexivity.
  - intros camera a _.
    rewrite isActionEnabled_unfold, getIsLocked_setIsLocked,
      lockSettings_setIsLocked, lockSettings_new.
    simpl. apply initial_lockSettings_false.
  - intros camera a _.
    rewrite isActionEnabled_unfold, getIsLocked_setLockSettings,
      getIsLocked_setIsLocked.
    unfold setLockSettings.
    rewrite lockSettings_setIsLocked, lockSettings_new. simpl.
    apply pan_only.
Qed.

Lemma isActionEnabled_correct_witness :
  isActionEnabled "pan" (Navigation_new None) = true.
Proof.
  destruct isActionEnabled_correct as (_ & Hunlocked & _).
  apply (Hunlocked (Navigation_new None) "pan").
  - reflexivity.
  - simpl. tauto.
Defined.

(** ** The reverse-look options *)

(** C9.  On a freshly constructed object (which is in non-2D mode) the
    getters [getReverseHorizontalLookDirection] and
    [getReverseVerticalLookDirection] read the properties
    [reverseHorizontalLookDirection] and [reverseVerticalLookDirection],
    which the constructor does not create: they return [undefined], not the
    [false] held by the constructed [reverseHorizontalLook] and
    [reverseVerticalLook]. *)
Theorem reverse_look_getters_fresh (camera : option CameraArg) :
  getIs2D (Navigation_new camera) = false
  /\ prop (__options (Navigation_new camera)) "reverseHorizontalLook" = JBool false
  /\ prop (__options (Navigation_new camera)) "reverseVerticalLook" = JBool false
  /\ getReverseHorizontalLookDirection (Navigation_new camera)
     = (JUndefined, Navigation_new camera)
  /\ getReverseVerticalLookDirection (Navigation_new camera)
     = (JUndefined, Navigation_new camera).
Proof.
  repeat split;
    try (unfold getReverseHorizontalLookDirection,
           getReverseVerticalLookDirection);
    try rewrite options_new; destruct camera; reflexivity.
Qed.

(** The setters write the property the getters read, and leave the
    constructed one as it was. *)
Lemma setReverseHorizontalLookDirection_get (state : jsval) (n : Navigation) :
  getIs2D n = false ->
  fst (getReverseHorizontalLookDirection
         (setReverseHorizontalLookDirection state n)) = JBool (truthy state)
  /\ prop (__options (setReverseHorizontalLookDirection state n))
       "reverseHorizontalLook"
     = prop (__options n) "reverseHorizontalLook".
Proof.
  intros H2d.
  unfold getReverseHorizontalLookDirection, setReverseHorizontalLookDirection.
  rewrite H2d. simpl. unfold getIs2D in *. simpl. rewrite H2d. simpl.
  unfold prop. rewrite lookup_insert_eq, lookup_insert_ne by discriminate.
  split; reflexivity.
Qed.

(** ** View-change requests and the [gotoview] lock *)

Section Requests.

(** The requests that do consult the gate. *)
Lemma setRequestFitToView_locked (state : jsval) (n : Navigation) :
  isActionEnabled "gotoview" n = false -> setRequestFitToView state n = n.
Proof. intros H. unfold setRequestFitToView. rewrite H. reflexivity. Qed.

Lemma setRequestHomeView_locked (state : jsval) (n : Navigation) :
  isActionEnabled "gotoview" n = false -> setRequestHomeView state n = n.
Proof. intros H. unfold setRequestHomeView. rewrite H. reflexivity. Qed.

Lemma fitBounds_locked (immediate : bool) (bounds : option THREE.Box3)
    (reorient : bool) (n : Navigation) :
  isActionEnabled "gotoview" n = false ->
  fitBounds immediate bounds reorient n
  = Some (mkFit (getPosition n) (getTarget n), n).
Proof. intros H. unfold fitBounds. rewrite H. reflexivity. Qed.

End Requests.

(** C2, as stated, fails: on a locked object with default lock settings
    ['gotoview'] is disabled and no request is pending, yet both
    [setRequestTransition] and [setRequestTransitionWithUp] store the
    destination view they are given. *)
Lemma setRequestTransition_locked_counterexample :
  let n := locked0 in
  isActionEnabled "gotoview" n = false
  /\ getRequestTransition n = None
  /\ (exists n',
         setRequestTransition (JBool true) (RV 1 2 3) (RV 0 0 0) (Fin 45) false n
         = Some n'
         /\ getRequestTransition n'
            = Some (mkDestinationView (RV 1 2 3) (RV 0 0 0) (Fin 45)
                      (RV 0 1 0) (RV 0 1 0) false)
         /\ getRequestTransition n' <> getRequestTransition n)
  /\ (exists n',
         setRequestTransitionWithUp (JBool true) (RV 1 2 3) (RV 0 0 0) (Fin 45)
           (RV 0 0 1) None n
         = Some n'
         /\ getRequestTransition n' <> getRequestTransition n).
Proof.
  cbv zeta. split; [| split; [reflexivity | split]].
  - vm_compute. reflexivity.
  - eexists. split; [reflexivity |]. split; [reflexivity | discriminate].
  - eexists. split; [reflexivity | discriminate].
Qed.

(** C2, amended.  Neither request setter consults the lock system.  In
    every state with a camera, whether ['gotoview'] is enabled or not, no
    error is raised, a call with a true state stores the given destination
    view (replacing a pending one) and a call with a false state clears it;
    nothing else changes.  The gate is applied by [setRequestFitToView],
    [setRequestHomeView] and [fitBounds], which are silent no-ops when
    ['gotoview'] is disabled, so that [fitBounds] then issues no request. *)
Theorem setRequestTransition_ungated (n : Navigation) (c : Camera)
    (state : jsval) (pos coi : vec) (fov : num) (reorient : bool)
    (up' : vec) (worldUp : option vec) :
  getCamera n = Some c ->
  setRequestTransition state pos coi fov reorient n
  = Some (set_destinationView
            (if truthy state
             then Some (mkDestinationView pos coi fov (up c) (worldup c) reorient)
             else None) n)
  /\ setRequestTransitionWithUp state pos coi fov up' worldUp n
     = Some (set_destinationView
               (if truthy state
                then Some (mkDestinationView pos coi fov up'
                             (default (worldup c) worldUp) false)
                else None) n)
  /\ (isActionEnabled "gotoview" n = false ->
      setRequestFitToView state n = n
      /\ setRequestHomeView state n = n
      /\ forall immediate bounds reorient',
          exists fit, fitBounds immediate bounds reorient' n = Some (fit, n)).
Proof.
  intros Hc. unfold getCamera in Hc. split; [| split].
  - unfold setRequestTransition, getCamera, getWorldUpVector, __getUp.
    rewrite Hc. destruct (truthy state); reflexivity.
  - unfold setRequestTransitionWithUp, getWorldUpVector, __getUp.
    rewrite Hc. destruct (truthy state), worldUp; reflexivity.
  - intros Hlock. split; [| split].
    + apply setRequestFitToView_locked, Hlock.
    + apply setRequestHomeView_locked, Hlock.
    + intros immediate bounds reorient'. eexists.
      apply fitBounds_locked, Hlock.
Qed.

Lemma setRequestTransition_ungated_witness :
  isActionEnabled "gotoview" locked0 = false
  /\ setRequestTransition (JBool true) (RV 1 2 3) (RV 0 0 0) (Fin 45) false
       locked0
     = Some (set_destinationView
               (Some (mkDestinationView (RV 1 2 3) (RV 0 0 0) (Fin 45)
                        (RV 0 1 0) (RV 0 1 0) false)) locked0).
Proof.
  split.
  - vm_compute. reflexivity.
  - exact (proj1 (setRequestTransition_ungated locked0 installed0
                    (JBool true) (RV 1 2 3) (RV 0 0 0) (Fin 45) false
                    (RV 0 0 1) None eq_refl)).
Defined.

(** ** Arithmetic and vectors on finite values *)

Section Finite.

Lemma ndiv_fin (a b : R) : b <> 0 -> (Fin a / Fin b)%J = Fin (a / b).
Proof. intros H. simpl. rewrite (Reqb_false b 0 H). reflexivity. Qed.

Lemma ndiv_zero_pos (a : R) : 0 < a -> (Fin a / Fin 0)%J = PInf.
Proof.
  intros H. simpl. rewrite (Reqb_true 0 0 eq_refl).
  rewrite Reqb_false by lra. rewrite Rltb_true by lra. reflexivity.
Qed.

Lemma nsqrt_fin (a : R) : 0 <= a -> nsqrt (Fin a) = Fin (sqrt a).
Proof. intros H. simpl. rewrite Rltb_false by lra. reflexivity. Qed.

Lemma sumsq_nonneg (a b c : R) : 0 <= a * a + b * b + c * c.
Proof. nra. Qed.

Lemma sumsq_zero (a b c : R) :
  a * a + b * b + c * c = 0 -> a = 0 /\ b = 0 /\ c = 0.
Proof. intros H. repeat split; nra. Qed.

Lemma lengthSq_RV (a b c : R) :
  THREE.lengthSq (RV a b c) = Fin (a * a + b * b + c * c).
Proof. reflexivity. Qed.

Lemma length_RV (a b c : R) :
  THREE.length (RV a b c) = Fin (sqrt (a * a + b * b + c * c)).
Proof.
  unfold THREE.length. rewrite lengthSq_RV.
  apply nsqrt_fin, sumsq_nonneg.
Qed.

Lemma normalize_zero : THREE.normalize (RV 0 0 0) = RV 0 0 0.
Proof.
  unfold THREE.normalize. rewrite length_RV.
  replace (0 * 0 + 0 * 0 + 0 * 0) with 0 by ring. rewrite sqrt_0.
  unfold THREE.divideScalar, nne. simpl.
  rewrite (Reqb_true 0 0 eq_refl). reflexivity.
Qed.

(** Normalising a non-zero finite vector scales it by the positive
    factor [k = 1 / length], and the result has length one. *)
Lemma normalize_RV (a b c : R) :
  a * a + b * b + c * c <> 0 ->
  exists k : R,
    0 < k
    /\ THREE.normalize (RV a b c) = RV (a * k) (b * k) (c * k)
    /\ k * k * (a * a + b * b + c * c) = 1.
Proof.
  intros Hnz. set (s := a * a + b * b + c * c) in *.
  assert (Hs : 0 < s) by (pose proof (sumsq_nonneg a b c); fold s in H; lra).
  assert (Hl : 0 < sqrt s) by (apply sqrt_lt_R0; exact Hs).
  exists (1 / sqrt s). split; [| split].
  - apply Rdiv_lt_0_compat; lra.
  - unfold THREE.normalize. rewrite length_RV. fold s.
    unfold THREE.divideScalar, nne. simpl.
    rewrite (Reqb_false (sqrt s) 0) by lra. reflexivity.
  - pose proof (sqrt_sqrt s (Rlt_le _ _ Hs)) as Hq.
    assert (Hne : sqrt s <> 0) by lra.
    replace s with (sqrt s * sqrt s) at 3 by exact Hq.
    field. exact Hne.
Qed.

(** The normalised vector is finite, whatever the finite input. *)
Lemma normalize_finite (a b c : R) :
  exists x y z : R, THREE.normalize (RV a b c) = RV x y z.
Proof.
  destruct (Req_dec_T (a * a + b * b + c * c) 0) as [Hz | Hnz].
  - apply sumsq_zero in Hz. destruct Hz as (-> & -> & ->).
    exists 0, 0, 0. apply normalize_zero.
  - destruct (normalize_RV a b c Hnz) as (k & _ & Hk & _).
    exists (a * k), (b * k), (c * k). exact Hk.
Qed.

Lemma finite_RV (v : vec) :
  THREE.finite v = true -> exists a b c : R, v = RV a b c.
Proof.
  destruct v as [[a | | |] [b | | |] [c | | |]]; simpl; intros H;
    try discriminate.
  exists a, b, c. reflexivity.
Qed.

End Finite.

(** ** The world right vector *)

Section WorldRight.

Variables a b c : R.
Hypothesis nonzero : a <> 0 \/ b <> 0 \/ c <> 0.

(** Each branch yields a non-zero vector orthogonal to the world up. *)
Lemma right_set_orthogonal :
  exists ra rb rc : R,
    right_set (RV a b c) = RV ra rb rc
    /\ ra * ra + rb * rb + rc * rc <> 0
    /\ ra * a + rb * b + rc * c = 0.
Proof.
  unfold right_set. simpl. unfold nge. simpl.
  destruct (Rle_dec (Rabs c) (Rabs b)) as [Hle | Hgt].
  - rewrite (Rleb_true _ _ Hle).
    exists b, (- a), 0. split; [reflexivity |]. split; [| ring].
    intros Hz. apply sumsq_zero in Hz. destruct Hz as (Hb & Ha & _).
    subst b. rewrite Rabs_R0 in Hle.
    pose proof (Rabs_pos c) as Hc.
    assert (Hc0 : c = 0).
    { destruct (Req_dec_T c 0) as [E | E]; [exact E |].
      apply Rabs_pos_lt in E. lra. }
    lra.
  - rewrite Rleb_false by lra.
    assert (Hc : c <> 0).
    { intros ->. rewrite Rabs_R0 in Hgt. pose proof (Rabs_pos b). lra. }
    destruct (Rle_dec 0 c) as [Hpos | Hneg].
    + rewrite (Rleb_true _ _ Hpos).
      exists c, 0, (- a). split; [reflexivity |]. split; [| ring].
      intros Hz. apply sumsq_zero in Hz. tauto.
    + rewrite Rleb_false by lra.
      exists (- c), 0, a. split; [reflexivity |]. split; [| ring].
      intros Hz. apply sumsq_zero in Hz. lra.
Qed.

End WorldRight.

(** The vector set in any of the three branches is at least as long as
    the world up divided by the square root of two. *)
Lemma right_set_lengthSq (a b c ra rb rc : R) :
  right_set (RV a b c) = RV ra rb rc ->
  a * a + b * b + c * c <= 2 * (ra * ra + rb * rb + rc * rc).
Proof.
  unfold right_set. simpl. unfold nge. simpl.
  destruct (Rle_dec (Rabs c) (Rabs b)) as [Hle | Hgt].
  - rewrite (Rleb_true _ _ Hle). intros H. injection H as <- <- <-.
    assert (Hcb : c * c <= b * b) by (apply (Rsqr_le_abs_1 c b); exact Hle).
    nra.
  - rewrite Rleb_false by lra.
    assert (Hbc : b * b <= c * c) by (apply (Rsqr_le_abs_1 b c); lra).
    destruct (Rleb 0 c); intros H; injection H as <- <- <-; nra.
Qed.

(** C10.  The claim fails for a world up that is not finite: with the
    world up [(Infinity, 0, 0)], which [setCamera] installs as it is, the
    vector set before normalising is [(0, -Infinity, 0)], and the vector
    returned has a component that is not a number, so it is not a unit
    vector. *)
Theorem getWorldRightVector_infinite_up_counterexample :
  __getUp nav_infinite_up = V3 PInf (Fin 0) (Fin 0)
  /\ right_set (__getUp nav_infinite_up) = V3 (Fin 0) NInf (Fin 0)
  /\ THREE.y (getWorldRightVector nav_infinite_up) = NaN
  /\ THREE.lengthSq (getWorldRightVector nav_infinite_up) <> Fin 1.
Proof.
  assert (Hset : right_set (V3 PInf (Fin 0) (Fin 0)) = V3 (Fin 0) NInf (Fin 0)).
  { unfold right_set. cbn [THREE.x THREE.y THREE.z nabs nle nneg].
    rewrite (Rleb_true (Rabs 0) (Rabs 0)) by lra. reflexivity. }
  assert (Hright : getWorldRightVector nav_infinite_up
                   = V3 (Fin (0 * 0)) NaN (Fin (0 * 0))).
  { unfold getWorldRightVector. cbv zeta.
    change (__getUp nav_infinite_up) with (V3 PInf (Fin 0) (Fin 0)).
    rewrite Hset. unfold THREE.normalize, THREE.length, THREE.lengthSq.
    cbn [THREE.x THREE.y THREE.z nmul nadd nsqrt].
    unfold THREE.divideScalar. cbn [nne neq negb ndiv THREE.x THREE.y THREE.z nmul].
    unfold inf_times. rewrite (Reqb_true 0 0 eq_refl). reflexivity. }
  split; [reflexivity |]. split; [exact Hset |].
  rewrite Hright. split; [reflexivity |]. discriminate.
Qed.

(** C10.  For a finite world up [(a, b, c)] whose length lies between
    [10^-100] and [10^100], the vector [getWorldRightVector] sets before
    normalising is, in whichever of the three branches is taken, non-zero
    and has a dot product of zero with the world up; the vector returned is
    finite, its squared length is within [1e-9] of one, and its dot
    product with the world up is at most [1e-9] times the length of the
    world up in absolute value. *)
Theorem getWorldRightVector_unit_orthogonal (n : Navigation) (a b c : R) :
  __getUp n = RV a b c ->
  / 10 ^ 200 <= a * a + b * b + c * c <= 10 ^ 200 ->
  (exists ra rb rc : R,
      right_set (__getUp n) = RV ra rb rc
      /\ ra * ra + rb * rb + rc * rc <> 0
      /\ a * a + b * b + c * c <= 2 * (ra * ra + rb * rb + rc * rc)
      /\ THREE.dot (RV ra rb rc) (__getUp n) = Fin 0)
  /\ (exists x y z : R,
         getWorldRightVector n = RV x y z
         /\ Rabs (x * x + y * y + z * z - 1) <= 0.000000001
         /\ Rabs (x * a + y * b + z * c)
            <= 0.000000001 * sqrt (a * a + b * b + c * c)).
Proof.
  intros Hup (Hlow & _).
  assert (Hpos : 0 < a * a + b * b + c * c).
  { apply Rlt_le_trans with (/ 10 ^ 200); [| exact Hlow].
    apply Rinv_0_lt_compat, pow_lt. lra. }
  assert (Hnz : a <> 0 \/ b <> 0 \/ c <> 0).
  { destruct (Req_dec_T a 0) as [-> | Ha]; [| left; exact Ha].
    destruct (Req_dec_T b 0) as [-> | Hb]; [| right; left; exact Hb].
    right. right. intros ->. lra. }
  unfold getWorldRightVector. cbv zeta. rewrite Hup.
  destruct (right_set_orthogonal a b c Hnz) as (ra & rb & rc & Hset & Hlen & Hdot).
  split.
  - exists ra, rb, rc. split; [exact Hset |]. split; [exact Hlen |].
    split; [exact (right_set_lengthSq a b c ra rb rc Hset) |].
    unfold THREE.dot, RV. simpl. f_equal. exact Hdot.
  - rewrite Hset.
    destruct (normalize_RV ra rb rc Hlen) as (k & Hk & Hnorm & Hunit).
    rewrite Hnorm. exists (ra * k), (rb * k), (rc * k).
    split; [reflexivity |]. split.
    + replace (ra * k * (ra * k) + rb * k * (rb * k) + rc * k * (rc * k) - 1)
        with 0 by (rewrite <- Hunit; ring).
      rewrite Rabs_R0. lra.
    + replace (ra * k * a + rb * k * b + rc * k * c)
        with (k * (ra * a + rb * b + rc * c)) by ring.
      rewrite Hdot, Rmult_0_r, Rabs_R0.
      apply Rmult_le_pos; [lra | apply sqrt_pos].
Qed.

Lemma getWorldRightVector_unit_orthogonal_witness :
  exists x y z : R,
    getWorldRightVector nav0 = RV x y z
    /\ Rabs (x * x + y * y + z * z - 1) <= 0.000000001
    /\ Rabs (x * 0 + y * 1 + z * 0)
       <= 0.000000001 * sqrt (0 * 0 + 1 * 1 + 0 * 0).
Proof.
  refine (proj2 (getWorldRightVector_unit_orthogonal nav0 0 1 0 eq_refl _)).
  assert (H1 : 1 <= 10 ^ 200) by (apply pow_R1_Rle; lra).
  assert (H2 : / 10 ^ 200 <= 1).
  { rewrite <- Rinv_1. apply Rinv_le_contravar; lra. }
  lra.
Defined.

(** ** Panning *)

Section Pan.

Variable n : Navigation.
Variable c : Camera.
Hypothesis has_camera : getCamera n = Some c.

Lemma getPosition_camera : getPosition n = position c.
Proof. unfold getPosition. unfold getCamera in has_camera. rewrite has_camera. reflexivity. Qed.

Lemma getTarget_camera : getTarget n = target c.
Proof. unfold getTarget. unfold getCamera in has_camera. rewrite has_camera. reflexivity. Qed.

Lemma getEyeVector_camera : getEyeVector n = THREE.sub (target c) (position c).
Proof. unfold getEyeVector. unfold getCamera in has_camera. rewrite has_camera. reflexivity. Qed.

(** With a camera, an enabled pan adds one and the same offset vector to
    the position and to the target. *)
Lemma panRelative_offset (deltaX deltaY atDistance : num) :
  isActionEnabled "pan" n = true ->
  exists (trackSpeed : num * num) (right upv : vec),
    getWorldSize atDistance n = Some trackSpeed
    /\ getCameraRightVector false n = Some right
    /\ getCameraUpVector n = Some upv
    /\ let offsetVector :=
         THREE.add (THREE.multiplyScalar right (deltaX * fst trackSpeed)%J)
           (THREE.multiplyScalar upv (deltaY * snd trackSpeed)%J) in
       panRelative deltaX deltaY atDistance n
       = Some (setView (THREE.add (position c) offsetVector)
                 (THREE.add (target c) offsetVector) n).
Proof.
  intros Hen.
  assert (Hr : exists right, getCameraRightVector false n = Some right).
  { unfold getCameraRightVector. rewrite has_camera. simpl.
    destruct (THREE.lengthSq _ === Fin 0)%J; eexists; reflexivity. }
  destruct Hr as (right & Hr).
  assert (Hs : exists ts, getWorldSize atDistance n = Some ts).
  { unfold getWorldSize. rewrite has_camera. simpl. eexists; reflexivity. }
  destruct Hs as (ts & Hs).
  assert (Hu : exists upv, getCameraUpVector n = Some upv).
  { unfold getCameraUpVector. rewrite Hr. simpl. eexists; reflexivity. }
  destruct Hu as (upv & Hu).
  exists ts, right, upv. repeat (split; [assumption |]).
  cbv zeta. unfold panRelative. rewrite Hen, Hs, Hr, Hu. simpl.
  rewrite getPosition_camera, getTarget_camera. reflexivity.
Qed.

(** The camera axes of a finite camera are finite. *)
Variables px py pz tx ty tz ux uy uz : R.
Hypothesis position_finite : position c = RV px py pz.
Hypothesis target_finite : target c = RV tx ty tz.
Hypothesis up_finite : up c = RV ux uy uz.

Lemma getCameraRightVector_finite :
  exists x y z : R, getCameraRightVector false n = Some (RV x y z).
Proof.
  unfold getCameraRightVector. rewrite has_camera. simpl.
  rewrite getEyeVector_camera, position_finite, target_finite, up_finite.
  unfold THREE.crossVectors, THREE.sub, THREE.lengthSq, ngt, RV. simpl.
  repeat match goal with
         | |- context [Reqb ?a ?b] => destruct (Reqb a b)
         | |- context [Rltb ?a ?b] => destruct (Rltb a b)
         end;
    simpl;
    match goal with
    | |- exists x y z, Some (THREE.normalize (THREE.V3 (Fin ?a) (Fin ?b) (Fin ?d))) = _ =>
        destruct (normalize_finite a b d) as (x & y & z & H);
        exists x, y, z; f_equal; exact H
    end.
Qed.

Lemma getCameraUpVector_finite :
  exists x y z : R, getCameraUpVector n = Some (RV x y z).
Proof.
  unfold getCameraUpVector.
  destruct getCameraRightVector_finite as (rx & ry & rz & ->). simpl.
  rewrite getEyeVector_camera, position_finite, target_finite.
  unfold THREE.cross, THREE.crossVectors, THREE.sub, RV. simpl.
  match goal with
  | |- exists x y z, Some (THREE.normalize (THREE.V3 (Fin ?a) (Fin ?b) (Fin ?d))) = _ =>
      destruct (normalize_finite a b d) as (x & y & z & H);
      exists x, y, z; f_equal; exact H
  end.
Qed.


End Pan.

Section SetView.

Variable n : Navigation.
Variable c : Camera.
Hypothesis has_camera : getCamera n = Some c.

Lemma getPosition_setView (p t : vec) : getPosition (setView p t n) = p.
Proof. unfold setView. unfold getCamera in has_camera. rewrite has_camera. reflexivity. Qed.

Lemma getTarget_setView (p t : vec) : getTarget (setView p t n) = t.
Proof. unfold setView. unfold getCamera in has_camera. rewrite has_camera. reflexivity. Qed.

Lemma getEyeVector_setView (p t : vec) :
  getEyeVector (setView p t n) = THREE.sub t p.
Proof. unfold setView. unfold getCamera in has_camera. rewrite has_camera. reflexivity. Qed.

End SetView.

(** Zero times the frustum width of a viewport of height zero is not a
    number, whatever the frustum height. *)
Lemma zero_times_infinite_width (H : R) :
  (Fin 0 * (Fin H * (Fin 1 / Fin 0)))%J = NaN.
Proof.
  cbn [ndiv]. rewrite (Reqb_true 0 0 eq_refl).
  rewrite (Reqb_false 1 0) by lra. rewrite (Rltb_true 0 1) by lra.
  cbn [nmul]. unfold inf_times.
  destruct (Reqb H 0); [reflexivity |].
  destruct (Rltb 0 H); cbn [inf_of negb nmul]; unfold inf_times;
    rewrite (Reqb_true 0 0 eq_refl); reflexivity.
Qed.

(** C5.  The claim fails for inputs the function can receive: with a
    viewport of height zero the frustum width is infinite, and a vertical
    pan ([deltaX = 0]) on the sample camera, whose view vector is
    [(0, 0, -10)], leaves a view vector that is not a number in every
    component. *)
Theorem panRelative_zero_height_counterexample :
  exists n' : Navigation,
    isActionEnabled "pan" nav_flat = true
    /\ panRelative (Fin 0) (Fin 0.1) (Fin 10) nav_flat = Some n'
    /\ getEyeVector nav_flat = RV 0 0 (-10)
    /\ getEyeVector n' = V3 NaN NaN NaN
    /\ THREE.sub (getTarget n') (getPosition n')
       <> THREE.sub (getTarget nav_flat) (getPosition nav_flat).
Proof.
  destruct (panRelative_offset nav_flat installed0 eq_refl (Fin 0) (Fin 0.1)
              (Fin 10) eq_refl)
    as (ts & right & upv & Hs & _ & _ & Hpan).
  assert (Hts : exists H : R, fst ts = (Fin H * (Fin 1 / Fin 0))%J).
  { unfold getWorldSize in Hs. change (getCamera nav_flat) with (Some installed0) in Hs.
    cbn [mbind option_bind] in Hs.
    change (getScreenViewport nav_flat)
      with (mkViewport (Fin 0) (Fin 0) (Fin 1) (Fin 0)) in Hs.
    cbn [width height fov installed0] in Hs.
    unfold degToRad, Math_PI in Hs. rewrite (ndiv_fin PI 180) in Hs by lra.
    cbn [nmul ntan] in Hs.
    injection Hs as <-. eexists. reflexivity. }
  destruct Hts as (H & Hts). cbv zeta in Hpan. rewrite Hts in Hpan.
  rewrite zero_times_infinite_width in Hpan.
  eexists. split; [reflexivity |]. split; [exact Hpan |].
  split.
  { change (getEyeVector nav_flat) with (RV (0 - 0) (0 - 0) (0 - 10)).
    unfold RV. f_equal; f_equal; lra. }
  assert (Heye : getEyeVector
                   (setView
                      (THREE.add (position installed0)
                         (THREE.add (THREE.multiplyScalar right NaN)
                            (THREE.multiplyScalar upv
                               (Fin 0.1 * snd ts)%J)))
                      (THREE.add (target installed0)
                         (THREE.add (THREE.multiplyScalar right NaN)
                            (THREE.multiplyScalar upv
                               (Fin 0.1 * snd ts)%J))) nav_flat)
                 = V3 NaN NaN NaN).
  { rewrite (getEyeVector_setView nav_flat installed0 eq_refl).
    destruct right as [[r1 | | |] [r2 | | |] [r3 | | |]]; reflexivity. }
  split; [exact Heye |].
  rewrite (getTarget_setView nav_flat installed0 eq_refl),
    (getPosition_setView nav_flat installed0 eq_refl).
  rewrite (getEyeVector_setView nav_flat installed0 eq_refl) in Heye.
  rewrite Heye. discriminate.
Qed.

(** C5.  With a camera and ['pan'] enabled, for every [deltaX], [deltaY]
    and [atDistance], [panRelative] raises no error and adds one and the
    same offset vector to the camera position and to the camera target,
    leaving the pivot where it is.  When position, target and offset are
    finite and of magnitude at most [10^100], each component of the new
    view vector is within [1e-9 * (|position| + |target| + |offset|)]
    (taken on that component) of the old one. *)
Theorem panRelative_preserves_view (n : Navigation) (c : Camera)
    (deltaX deltaY atDistance : num) :
  getCamera n = Some c ->
  isActionEnabled "pan" n = true ->
  exists (offsetVector : vec) (n' : Navigation),
    panRelative deltaX deltaY atDistance n = Some n'
    /\ getPosition n' = THREE.add (getPosition n) offsetVector
    /\ getTarget n' = THREE.add (getTarget n) offsetVector
    /\ getPivotPoint n' = getPivotPoint n
    /\ forall px py pz tx ty tz ox oy oz : R,
         getPosition n = RV px py pz -> getTarget n = RV tx ty tz ->
         offsetVector = RV ox oy oz ->
         Rabs px + Rabs py + Rabs pz + Rabs tx + Rabs ty + Rabs tz
         + Rabs ox + Rabs oy + Rabs oz <= 10 ^ 100 ->
         exists ex ey ez : R,
           getEyeVector n' = RV ex ey ez
           /\ Rabs (ex - (tx - px))
              <= 0.000000001 * (Rabs px + Rabs tx + Rabs ox)
           /\ Rabs (ey - (ty - py))
              <= 0.000000001 * (Rabs py + Rabs ty + Rabs oy)
           /\ Rabs (ez - (tz - pz))
              <= 0.000000001 * (Rabs pz + Rabs tz + Rabs oz).
Proof.
  intros Hc Hen.
  destruct (panRelative_offset n c Hc deltaX deltaY atDistance Hen)
    as (ts & right & upv & _ & _ & _ & Hpan).
  cbv zeta in Hpan.
  set (off := THREE.add (THREE.multiplyScalar right (deltaX * fst ts)%J)
                (THREE.multiplyScalar upv (deltaY * snd ts)%J)) in *.
  exists off. eexists. split; [exact Hpan |].
  rewrite (getPosition_setView n c Hc), (getTarget_setView n c Hc),
    (getEyeVector_setView n c Hc).
  rewrite (getPosition_camera n c Hc), (getTarget_camera n c Hc).
  split; [reflexivity |]. split; [reflexivity |].
  split.
  { unfold getPivotPoint, setView. unfold getCamera in Hc. rewrite Hc.
    reflexivity. }
  intros px py pz tx ty tz ox oy oz -> -> -> _.
  exists (tx + ox - (px + ox)), (ty + oy - (py + oy)), (tz + oz - (pz + oz)).
  split; [reflexivity |].
  pose proof (Rabs_pos px). pose proof (Rabs_pos py). pose proof (Rabs_pos pz).
  pose proof (Rabs_pos tx). pose proof (Rabs_pos ty). pose proof (Rabs_pos tz).
  pose proof (Rabs_pos ox). pose proof (Rabs_pos oy). pose proof (Rabs_pos oz).
  replace (tx + ox - (px + ox) - (tx - px)) with 0 by ring.
  replace (ty + oy - (py + oy) - (ty - py)) with 0 by ring.
  replace (tz + oz - (pz + oz) - (tz - pz)) with 0 by ring.
  rewrite Rabs_R0. repeat split; lra.
Qed.

Lemma panRelative_preserves_view_witness :
  exists (offsetVector : vec) (n' : Navigation),
    panRelative (Fin 1) (Fin 2) (Fin 10) nav0 = Some n'
    /\ getPosition n' = THREE.add (getPosition nav0) offsetVector
    /\ getTarget n' = THREE.add (getTarget nav0) offsetVector.
Proof.
  destruct (panRelative_preserves_view nav0 installed0 (Fin 1) (Fin 2) (Fin 10)
              eq_refl eq_refl)
    as (off & n' & H1 & H2 & H3 & _).
  exists off, n'. split; [exact H1 |]. split; [exact H2 | exact H3].
Defined.

(** ** Dolly *)

Section Dolly.

Variable n : Navigation.
Variable c : Camera.
Variables px py pz : R.
Hypothesis has_camera : getCamera n = Some c.
Hypothesis position_finite : position c = RV px py pz.
Hypothesis epsilon : __kEpsilon n = kEpsilon.
Hypothesis zoom_enabled : isActionEnabled "zoom" n = true.

(** Away from the anchor: the camera either stays where it is or ends at
    a distance from the anchor that is at least ten times epsilon. *)
Lemma dollyFromPoint_min_distance (d qx qy qz : R) :
  (qx - px) * (qx - px) + (qy - py) * (qy - py) + (qz - pz) * (qz - pz) <> 0 ->
  exists n' : Navigation,
    dollyFromPoint (Fin d) (RV qx qy qz) n = Some n'
    /\ (n' = n
        \/ exists L : R,
             THREE.length (THREE.sub (getPosition n') (RV qx qy qz)) = Fin L
             /\ 0.00001 <= L).
Proof.
  intros Hnz.
  set (s := (qx - px) * (qx - px) + (qy - py) * (qy - py)
            + (qz - pz) * (qz - pz)) in *.
  assert (Hs : 0 < s).
  { pose proof (sumsq_nonneg (qx - px) (qy - py) (qz - pz)) as H.
    fold s in H. lra. }
  assert (Hl : 0 < sqrt s) by (apply sqrt_lt_R0; exact Hs).
  unfold dollyFromPoint. rewrite zoom_enabled, epsilon. cbv zeta.
  rewrite (getPosition_camera n c has_camera), position_finite.
  replace (THREE.sub (RV qx qy qz) (RV px py pz))
    with (RV (qx - px) (qy - py) (qz - pz)) by reflexivity.
  rewrite length_RV. fold s. unfold kEpsilon.
  destruct (nabs (Fin d) <=? Fin 0.000001)%J.
  { exists n. split; [reflexivity | left; reflexivity]. }
  cbn [negb orb nadd nmul nlt].
  set (L := if Rltb (sqrt s + d) (0.000001 * 10) then 0.000001 * 10
            else sqrt s + d).
  assert (HL : 0.00001 <= L).
  { unfold L, Rltb. destruct (Rlt_dec (sqrt s + d) (0.000001 * 10)); lra. }
  replace (if Rltb (sqrt s + d) (0.000001 * 10) then Fin (0.000001 * 10)
           else Fin (sqrt s + d)) with (Fin L)
    by (unfold L; destruct (Rltb (sqrt s + d) (0.000001 * 10)); reflexivity).
  rewrite (ndiv_fin L (sqrt s)) by lra.
  destruct (nabs (Fin (L / sqrt s) - Fin 1) >? Fin 0.000001)%J.
  2: { exists n. split; [reflexivity | left; reflexivity]. }
  rewrite has_camera. cbn [mbind option_bind].
  eexists. split; [reflexivity |]. right.
  rewrite (getPosition_setView n c has_camera).
  exists L. split; [| exact HL].
  set (k := L / sqrt s).
  replace (THREE.sub _ (RV qx qy qz))
    with (RV (- ((qx - px) * k) + qx - qx) (- ((qy - py) * k) + qy - qy)
            (- ((qz - pz) * k) + qz - qz)) by reflexivity.
  rewrite length_RV. f_equal.
  rewrite <- (sqrt_square L) by lra. f_equal.
  pose proof (sqrt_sqrt s (Rlt_le _ _ Hs)) as Hq.
  assert (Hne : sqrt s <> 0) by lra.
  transitivity (k * k * s).
  - unfold s. ring.
  - unfold k. rewrite <- Hq at 3. field. exact Hne.
Qed.

(** At the anchor: dollying from the camera's own position divides by a
    zero length, and the position written to the camera is not a
    number. *)
Lemma dollyFromPoint_at_position (d : R) :
  0.000001 < Rabs d ->
  exists n' : Navigation,
    dollyFromPoint (Fin d) (RV px py pz) n = Some n'
    /\ getPosition n' = V3 NaN NaN NaN
    /\ (THREE.length (THREE.sub (getPosition n') (RV px py pz))
          >=? __kEpsilon n * Fin 10)%J = false.
Proof.
  intros Hd.
  unfold dollyFromPoint. rewrite zoom_enabled, epsilon. cbv zeta.
  rewrite (getPosition_camera n c has_camera), position_finite.
  replace (THREE.sub (RV px py pz) (RV px py pz)) with (RV (px - px) (py - py) (pz - pz))
    by reflexivity.
  rewrite length_RV.
  replace ((px - px) * (px - px) + (py - py) * (py - py)
           + (pz - pz) * (pz - pz)) with 0 by ring.
  rewrite sqrt_0. unfold kEpsilon.
  cbn [nabs nle negb orb nadd nmul nlt].
  rewrite Rleb_false by lra. cbn [negb orb].
  set (L := if Rltb (0 + d) (0.000001 * 10) then 0.000001 * 10 else 0 + d).
  assert (HL : 0.00001 <= L).
  { unfold L, Rltb. destruct (Rlt_dec (0 + d) (0.000001 * 10)); lra. }
  replace (if Rltb (0 + d) (0.000001 * 10) then Fin (0.000001 * 10)
           else Fin (0 + d)) with (Fin L)
    by (unfold L; destruct (Rltb (0 + d) (0.000001 * 10)); reflexivity).
  rewrite (ndiv_zero_pos L) by lra.
  cbn [nsub nadd nneg nabs ngt nlt].
  rewrite has_camera. cbn [mbind option_bind].
  eexists. split; [reflexivity |].
  rewrite (getPosition_setView n c has_camera).
  unfold THREE.multiplyScalar, THREE.add, THREE.sub, RV. cbn.
  replace (px - px) with 0 by ring.
  replace (py - py) with 0 by ring.
  replace (pz - pz) with 0 by ring.
  unfold inf_times. rewrite (Reqb_true 0 0 eq_refl). cbn.
  split; reflexivity.
Qed.

End Dolly.

(** C4.  The claim fails when the dolly anchor is the camera position
    itself: [dollyFromPoint(1, (0,0,10))] on a camera at [(0,0,10)] does
    reposition the camera, to a position that is not a number, whose
    distance from the anchor is not at least ten times epsilon. *)
Theorem dollyFromPoint_anchor_at_camera :
  exists n' : Navigation,
    dollyFromPoint (Fin 1) (RV 0 0 10) nav0 = Some n'
    /\ getPosition nav0 = RV 0 0 10
    /\ getPosition n' = V3 NaN NaN NaN
    /\ (THREE.length (THREE.sub (getPosition n') (RV 0 0 10))
          >=? __kEpsilon nav0 * Fin 10)%J = false.
Proof.
  destruct (dollyFromPoint_at_position nav0 installed0 0 0 10
              eq_refl eq_refl eq_refl eq_refl 1) as (n' & Hd & Hp & Hl).
  - rewrite Rabs_R1. lra.
  - exists n'. repeat split; assumption.
Qed.

(** ** Orientation *)

Section Orient.

Lemma RV_ext (a b c a' b' c' : R) :
  a = a' -> b = b' -> c = c' -> RV a b c = RV a' b' c'.
Proof. intros -> -> ->. reflexivity. Qed.

(** A normalised finite vector has squared length zero only if the
    vector is zero, and one otherwise. *)
Lemma normalize_lengthSq (a b c : R) :
  a * a + b * b + c * c <> 0 ->
  THREE.lengthSq (THREE.normalize (RV a b c)) = Fin 1.
Proof.
  intros Hnz. destruct (normalize_RV a b c Hnz) as (k & _ & -> & Hk).
  rewrite lengthSq_RV. f_equal. rewrite <- Hk. ring.
Qed.

Lemma normalize_lengthSq_zero (a b c : R) :
  (THREE.lengthSq (THREE.normalize (RV a b c)) === Fin 0)%J = true ->
  a = 0 /\ b = 0 /\ c = 0.
Proof.
  intros H. apply sumsq_zero.
  destruct (Req_dec_T (a * a + b * b + c * c) 0) as [Hz | Hnz]; [exact Hz |].
  rewrite (normalize_lengthSq a b c Hnz) in H. simpl in H.
  rewrite Reqb_false in H by lra. discriminate.
Qed.

End Orient.

Section OrientParallel.

Variables tx ty tz fx fy fz ux uy uz : R.

Let target : vec := RV tx ty tz.
Let from : vec := RV fx fy fz.
Let up : vec := RV ux uy uz.
Let z0 : vec := THREE.normalize (THREE.subVectors from target).

Hypothesis view_nonzero : (THREE.lengthSq z0 === Fin 0)%J = false.
Hypothesis right_zero :
  (THREE.lengthSq (THREE.normalize (THREE.crossVectors up z0)) === Fin 0)%J
  = true.

(** The normalised view axis is a finite unit vector parallel to [up]. *)
Lemma orient_view_axis :
  exists zx zy zz : R,
    z0 = RV zx zy zz
    /\ zx * zx + zy * zy + zz * zz = 1
    /\ uy * zz - uz * zy = 0
    /\ uz * zx - ux * zz = 0
    /\ ux * zy - uy * zx = 0.
Proof.
  assert (Hs : (fx - tx) * (fx - tx) + (fy - ty) * (fy - ty)
               + (fz - tz) * (fz - tz) <> 0).
  { intros Hz. apply sumsq_zero in Hz. destruct Hz as (Ha & Hb & Hc).
    revert view_nonzero. unfold z0, from, target, THREE.subVectors.
    replace (THREE.sub (RV fx fy fz) (RV tx ty tz)) with (RV 0 0 0)
      by (symmetry; apply RV_ext; assumption).
    rewrite normalize_zero. simpl. rewrite Reqb_true by ring. discriminate. }
  destruct (normalize_RV _ _ _ Hs) as (k & Hk & Hn & Hu).
  exists ((fx - tx) * k), ((fy - ty) * k), ((fz - tz) * k).
  assert (Hz0 : z0 = RV ((fx - tx) * k) ((fy - ty) * k) ((fz - tz) * k))
    by exact Hn.
  split; [exact Hz0 |]. split; [rewrite <- Hu; ring |].
  revert right_zero. rewrite Hz0. unfold up.
  intros H. apply normalize_lengthSq_zero in H. exact H.
Qed.

End OrientParallel.

Section Basis.

Variables ux uy uz wx wy wz : R.

Let cx := uy * wz - uz * wy.
Let cy := uz * wx - ux * wz.
Let cz := ux * wy - uy * wx.

(** A right axis computed from a non-zero cross product is a unit vector
    orthogonal to the view axis, and the third axis is not zero. *)
Lemma basis_of_cross :
  cx * cx + cy * cy + cz * cz <> 0 ->
  let x := THREE.normalize (THREE.crossVectors (RV ux uy uz) (RV wx wy wz)) in
  THREE.lengthSq x = Fin 1
  /\ THREE.dot x (RV wx wy wz) = Fin 0
  /\ exists l : R,
       THREE.lengthSq (THREE.crossVectors (RV wx wy wz) x) = Fin l /\ 0 < l.
Proof.
  intros Hnz x.
  assert (Hc : THREE.crossVectors (RV ux uy uz) (RV wx wy wz) = RV cx cy cz)
    by reflexivity.
  destruct (normalize_RV cx cy cz Hnz) as (k & Hk & Hn & Hu).
  assert (Hx : x = RV (cx * k) (cy * k) (cz * k))
    by (unfold x; rewrite Hc; exact Hn).
  rewrite Hx.
  assert (Hw : wx * wx + wy * wy + wz * wz <> 0).
  { intros Hz. apply sumsq_zero in Hz. destruct Hz as (-> & -> & ->).
    apply Hnz. unfold cx, cy, cz. ring. }
  split; [| split].
  - rewrite lengthSq_RV. f_equal. rewrite <- Hu. ring.
  - unfold THREE.dot, RV. simpl. f_equal. unfold cx, cy, cz. ring.
  - eexists. split; [reflexivity |].
    match goal with
    | |- 0 < ?l =>
        replace l with ((wx * wx + wy * wy + wz * wz)
                        * (k * k * (cx * cx + cy * cy + cz * cz))
                        - k * k * (wx * cx + wy * cy + wz * cz)
                          * (wx * cx + wy * cy + wz * cz)) by ring
    end.
    rewrite Hu.
    replace (wx * cx + wy * cy + wz * cz) with 0 by (unfold cx, cy, cz; ring).
    pose proof (sumsq_nonneg wx wy wz). lra.
Qed.

End Basis.
(** What [orient] does when the first right axis vanishes. *)
Lemma orient_perturbed (tx ty tz fx fy fz ux uy uz : R) :
  let target := RV tx ty tz in
  let from := RV fx fy fz in
  let up := RV ux uy uz in
  let z0 := THREE.normalize (THREE.subVectors from target) in
  let b := orient target from up in
  (THREE.lengthSq z0 === Fin 0)%J = false ->
  (THREE.lengthSq (THREE.normalize (THREE.crossVectors up z0)) === Fin 0)%J
  = true ->
  bz b = (if (THREE.z up >? THREE.y up)%J
          then V3 (THREE.x z0) (THREE.y z0 - Fin 0.0001) (THREE.z z0)
          else V3 (THREE.x z0) (THREE.y z0) (THREE.z z0 + Fin 0.0001))
  /\ bx b = THREE.normalize (THREE.crossVectors up (bz b))
  /\ by_ b = THREE.crossVectors (bz b) (bx b)
  /\ ((uy < uz /\ (ux <> 0 \/ uz <> 0)) \/ (uz <= uy /\ (ux <> 0 \/ uy <> 0)) ->
      THREE.lengthSq (bx b) = Fin 1
      /\ THREE.dot (bx b) (bz b) = Fin 0
      /\ exists l : R, THREE.lengthSq (by_ b) = Fin l /\ 0 < l).
Proof.
  intros target from up z0 b Hz Hx.
  destruct (orient_view_axis tx ty tz fx fy fz ux uy uz Hz Hx)
    as (zx & zy & zz & Hz0 & Hunit & E1 & E2 & E3).
  fold target from up z0 in Hz0.
  assert (Hb : b = let z := (if (THREE.z up >? THREE.y up)%J
          then V3 (THREE.x z0) (THREE.y z0 - Fin 0.0001) (THREE.z z0)
          else V3 (THREE.x z0) (THREE.y z0) (THREE.z z0 + Fin 0.0001)) in
          let x := THREE.normalize (THREE.crossVectors up z) in
          mkBasis x (THREE.crossVectors z x) z).
  { unfold b, orient. fold z0. rewrite Hz, Hx. reflexivity. }
  rewrite Hb. cbv zeta. cbn [bx by_ bz].
  split; [reflexivity |]. split; [reflexivity |]. split; [reflexivity |].
  intros Hcond. rewrite Hz0. unfold up, ngt.
  cbn [THREE.x THREE.y THREE.z RV nlt nsub nadd].
  destruct Hcond as [[Hlt Hne] | [Hle Hne]].
  - rewrite (Rltb_true _ _ Hlt).
    apply (basis_of_cross ux uy uz zx (zy - 0.0001) zz).
    intros H. apply sumsq_zero in H. destruct H as (H1 & _ & H3).
    destruct Hne as [Hne | Hne]; apply Hne; lra.
  - rewrite (Rltb_false _ _ Hle).
    apply (basis_of_cross ux uy uz zx zy (zz + 0.0001)).
    intros H. apply sumsq_zero in H. destruct H as (H1 & H2 & _).
    destruct Hne as [Hne | Hne]; apply Hne; lra.
Qed.

(** Looking along [up = (0,1,0)]: the view axis is [(0,1,0)] and the right
    axis computed from it vanishes. *)
Lemma normalize_0_1_0 :
  THREE.normalize (THREE.subVectors (RV 0 1 0) (RV 0 0 0)) = RV 0 1 0.
Proof.
  unfold THREE.subVectors.
  replace (THREE.sub (RV 0 1 0) (RV 0 0 0)) with (RV 0 1 0)
    by (apply RV_ext; ring).
  destruct (normalize_RV 0 1 0) as (k & Hk & -> & Hu); [lra |].
  assert (k = 1) by nra. subst k. apply RV_ext; ring.
Qed.

Lemma view_along_up_tests (u : R) :
  (THREE.lengthSq (THREE.normalize (THREE.subVectors (RV 0 1 0) (RV 0 0 0)))
     === Fin 0)%J = false
  /\ (THREE.lengthSq
        (THREE.normalize
           (THREE.crossVectors (RV 0 u 0)
              (THREE.normalize (THREE.subVectors (RV 0 1 0) (RV 0 0 0)))))
        === Fin 0)%J = true.
Proof.
  rewrite normalize_0_1_0. split.
  - simpl. apply Reqb_false. lra.
  - replace (THREE.crossVectors (RV 0 u 0) (RV 0 1 0)) with (RV 0 0 0)
      by (apply RV_ext; ring).
    rewrite normalize_zero. simpl. apply Reqb_true. ring.
Qed.


(** With [up = (0,-1,0)] and the view along the Y axis the perturbation
    moves the view axis along [up] itself: the recomputed right axis is
    still zero. *)
Lemma orient_degenerate_up :
  bx (orient (RV 0 0 0) (RV 0 1 0) (RV 0 (-1) 0)) = RV 0 0 0.
Proof.
  destruct (view_along_up_tests (-1)) as (Hz & Hx).
  destruct (orient_perturbed 0 0 0 0 1 0 0 (-1) 0 Hz Hx) as (Hbz & Hbx & _).
  rewrite Hbx, Hbz, normalize_0_1_0. unfold ngt. simpl.
  rewrite Rltb_true by lra.
  replace (THREE.crossVectors _ _) with (RV 0 0 0)
    by (apply RV_ext; ring).
  apply normalize_zero.
Qed.




(** ** Fit to view *)

Section Fit.

Lemma nmul_half (x : num) : (Fin 0.5 * x)%J = (x / Fin 2)%J.
Proof.
  destruct x as [a | | |]; simpl; unfold inf_times;
    rewrite ?(Reqb_false 2 0), ?(Reqb_false 0.5 0), ?(Rltb_true 0 0.5),
      ?(Rltb_false 2 0) by lra; try reflexivity.
  f_equal. lra.
Qed.

Lemma ndiv2_is_zero (x : num) : ((x / Fin 2) === Fin 0)%J = (x === Fin 0)%J.
Proof.
  destruct x as [a | | |]; simpl;
    rewrite ?(Reqb_false 2 0), ?(Rltb_false 2 0) by lra; try reflexivity.
  simpl. destruct (Req_dec_T a 0) as [-> | Hne].
  - rewrite !Reqb_true by lra. reflexivity.
  - rewrite !Reqb_false by lra. reflexivity.
Qed.

Lemma degToRad_fin (a : R) : degToRad (Fin a) = Fin (a * (PI / 180)).
Proof.
  unfold degToRad, Math_PI. rewrite (ndiv_fin PI 180) by lra. reflexivity.
Qed.

Lemma degToRad_half (x : num) :
  degToRad (x * Fin 0.5) = (degToRad x / Fin 2)%J.
Proof.
  pose proof PI_RGT_0 as Hpi.
  unfold degToRad, Math_PI. rewrite (ndiv_fin PI 180) by lra.
  destruct x as [a | | |]; simpl; unfold inf_times;
    rewrite ?(Reqb_false 2 0), ?(Reqb_false 0.5 0), ?(Rltb_true 0 0.5),
      ?(Reqb_false (PI / 180) 0), ?(Rltb_true 0 (PI / 180)) by lra;
    simpl; unfold inf_times;
    rewrite ?(Reqb_false 2 0), ?(Reqb_false (PI / 180) 0),
      ?(Rltb_true 0 (PI / 180)), ?(Rltb_false 2 0) by lra;
    simpl; rewrite ?(Rltb_false 2 0) by lra; try reflexivity.
  f_equal. lra.
Qed.

(** [computeFit] is the reference fit in which the radius is inflated
    exactly when the view is not 2D. *)
Lemma computeFit_is_reference (oldpos oldcoi : vec) (fov : num)
    (bounds : option THREE.Box3) (n : Navigation) :
  computeFit oldpos oldcoi fov bounds n
  = computeFit_reference (negb (getIs2D n)) oldpos oldcoi fov bounds.
Proof.
  unfold computeFit, computeFit_reference.
  destruct bounds as [b |]; [| reflexivity].
  destruct (THREE.empty b); [reflexivity |]. cbv zeta.
  change (nsqrt _) with (THREE.length (THREE.size b)).
  rewrite nmul_half, ndiv2_is_zero, degToRad_half.
  destruct (negb (getIs2D n)); reflexivity.
Qed.

End Fit.

Section FitExample.

Lemma normalize_0_0_10 :
  THREE.normalize (THREE.sub (RV 0 0 10) (RV 0 0 0)) = RV 0 0 1.
Proof.
  replace (THREE.sub (RV 0 0 10) (RV 0 0 0)) with (RV 0 0 10)
    by (apply RV_ext; ring).
  destruct (normalize_RV 0 0 10) as (k & Hk & -> & Hu); [lra |].
  assert (k = / 10) by nra. subst k. apply RV_ext; lra.
Qed.

Lemma length_size_box0 : THREE.length (THREE.size box0) = Fin 2.
Proof.
  replace (THREE.size box0) with (RV 2 0 0) by (apply RV_ext; ring).
  rewrite length_RV. f_equal.
  replace (2 * 2 + 0 * 0 + 0 * 0) with (2 * 2) by ring.
  apply sqrt_square. lra.
Qed.

Lemma tan_45 : ntan (degToRad (Fin 90) / Fin 2)%J = Fin 1.
Proof.
  rewrite degToRad_fin, ndiv_fin by lra. simpl. f_equal.
  replace (90 * (PI / 180) / 2) with (PI / 4) by field.
  apply tan_PI4.
Qed.

(** The reference fit of [box0] seen from [(0,0,10)] at 90 degrees: the
    camera is placed above the centre at the distance of the radius,
    inflated or not. *)
Lemma reference_box0 (fudge : bool) :
  computeFit_reference fudge (RV 0 0 10) (RV 0 0 0) (Fin 90) (Some box0)
  = mkFit (RV 1 0 (if fudge then 1.35 else 1)) (RV 1 0 0).
Proof.
  unfold computeFit_reference.
  assert (He : THREE.empty box0 = false).
  { unfold THREE.empty, box0, RV. simpl. rewrite !Rltb_false by lra. reflexivity. }
  rewrite He. cbv zeta.
  rewrite length_size_box0, tan_45, normalize_0_0_10.
  assert (Hz : (Fin 2 === Fin 0)%J = false) by (simpl; apply Reqb_false; lra).
  rewrite Hz. rewrite (ndiv_fin 2 2) by lra. rewrite (ndiv_fin 90 100) by lra.
  assert (Hc : THREE.center box0 = RV 1 0 0) by (apply RV_ext; lra).
  rewrite Hc.
  destruct fudge.
  - cbn [nmul nadd nmax]. rewrite ndiv_fin by lra.
    unfold THREE.multiplyScalar, THREE.add, RV. cbn.
    rewrite Rmax_right by lra.
    f_equal. apply RV_ext; lra.
  - rewrite ndiv_fin by lra.
    unfold THREE.multiplyScalar, THREE.add, RV. cbn.
    f_equal. apply RV_ext; lra.
Qed.

End FitExample.

(** C3, as stated, fails: for an orthographic camera in a view that is not
    2D, [computeFit] inflates the radius although the view is not a non-2D
    perspective view, and so differs from the reference definition that
    inflates only for non-2D perspective views. *)
Lemma computeFit_fudge_counterexample :
  getIs2D nav_ortho = false
  /\ perspective_3D nav_ortho = false
  /\ computeFit (RV 0 0 10) (RV 0 0 0) (Fin 90) (Some box0) nav_ortho
     = mkFit (RV 1 0 1.35) (RV 1 0 0)
  /\ computeFit_reference (perspective_3D nav_ortho)
       (RV 0 0 10) (RV 0 0 0) (Fin 90) (Some box0)
     = mkFit (RV 1 0 1) (RV 1 0 0)
  /\ computeFit (RV 0 0 10) (RV 0 0 0) (Fin 90) (Some box0) nav_ortho
     <> computeFit_reference (perspective_3D nav_ortho)
          (RV 0 0 10) (RV 0 0 0) (Fin 90) (Some box0).
Proof.
  assert (H2 : getIs2D nav_ortho = false) by reflexivity.
  assert (Hp : perspective_3D nav_ortho = false) by reflexivity.
  rewrite computeFit_is_reference, H2, Hp. cbn [negb].
  rewrite !reference_box0.
  repeat split.
  intros H. injection H as H. lra.
Qed.

(** C3, amended.  [computeFit(oldpos, oldcoi, fov, bounds)] equals the
    reference definition in which the radius is multiplied by the fudge
    factor [max(1.0, 0.9 + fov/100*0.5)] exactly when the view is not 2D,
    whatever the projection of the camera: absent or empty bounds give
    [{position: oldpos, target: oldcoi}]; otherwise the target is the centre
    of the bounds and the position is the target plus the normalised
    [oldpos - oldcoi] times [radius / tan(radians(fov)/2)], the radius being
    half the diagonal of the bounds, floored to 1.0 when it is zero. *)
Theorem computeFit_reference_non2D (oldpos oldcoi : vec) (fov : num)
    (bounds : option THREE.Box3) (n : Navigation) :
  computeFit oldpos oldcoi fov bounds n
  = computeFit_reference (negb (getIs2D n)) oldpos oldcoi fov bounds.
Proof. apply computeFit_is_reference. Qed.

(** ** Bounds on [Math.round], [PI], [tan] and [atan] *)

Section Trig.

Lemma Rround_bounds (x : R) : x - / 2 < Rround x <= x + / 2.
Proof.
  unfold Rround. destruct (base_Int_part (x + / 2)) as (H1 & H2). lra.
Qed.

Lemma Rround_eq (x : R) (z : Z) :
  IZR z - / 2 <= x < IZR z + / 2 -> Rround x = IZR z.
Proof.
  intros H. unfold Rround. f_equal. symmetry. apply Int_part_spec. lra.
Qed.

Lemma PI_lower : 3 < PI.
Proof. pose proof PI2_3_2. lra. Qed.

Lemma PI_upper : PI <= 52 / 15.
Proof.
  pose proof (PI_ineq 1) as (_ & H).
  unfold tg_alt, PI_tg in H. simpl in H. lra.
Qed.

Lemma cos_small_lower (x : R) : 0 <= x <= 1 -> 1 - x * x / 2 <= cos x.
Proof.
  intros Hx. destruct (pre_cos_bound x 0) as (H & _); try lra.
  unfold cos_approx, cos_term in H. simpl in H. lra.
Qed.

Lemma sin_small_lower (x : R) : 0 <= x <= 1 -> x - x * x * x / 6 <= sin x.
Proof.
  intros Hx. destruct (pre_sin_bound x 0) as (H & _); try lra.
  unfold sin_approx, sin_term in H. simpl in H. lra.
Qed.

Lemma tan_small_upper (x : R) :
  0 < x <= 1 -> tan x < x / (1 - x * x / 2).
Proof.
  intros Hx.
  pose proof (cos_small_lower x ltac:(lra)) as Hc.
  pose proof (sin_lt_x x ltac:(lra)) as Hs.
  assert (Hd : 0 < 1 - x * x / 2) by nra.
  unfold tan.
  apply Rlt_le_trans with (x / cos x).
  - apply Rmult_lt_compat_r; [apply Rinv_0_lt_compat; lra | exact Hs].
  - apply Rmult_le_compat_l; [lra |].
    apply Rinv_le_contravar; lra.
Qed.

Lemma tan_small_lower (x : R) :
  0 < x <= 1 -> x - x * x * x / 6 <= tan x.
Proof.
  intros Hx.
  pose proof (cos_small_lower x ltac:(lra)) as Hc.
  pose proof (sin_small_lower x ltac:(lra)) as Hs.
  pose proof (COS_bound x) as (_ & Hc1).
  assert (Hc0 : 0 < cos x) by nra.
  assert (Hs0 : 0 <= sin x) by nra.
  unfold tan. apply Rle_trans with (sin x); [exact Hs |].
  rewrite <- (Rdiv_1_r (sin x)) at 1.
  apply Rmult_le_compat_l; [exact Hs0 |].
  apply Rinv_le_contravar; lra.
Qed.

Lemma Rdiv_le_bound (a b c : R) : 0 < b -> a <= c * b -> a / b <= c.
Proof.
  intros Hb H. apply Rmult_le_reg_r with b; [exact Hb |].
  unfold Rdiv. rewrite Rmult_assoc, Rinv_l by lra. lra.
Qed.

Lemma Rdiv_lt_bound (a b c : R) : 0 < b -> a < c * b -> a / b < c.
Proof.
  intros Hb H. apply Rmult_lt_reg_r with b; [exact Hb |].
  unfold Rdiv. rewrite Rmult_assoc, Rinv_l by lra. lra.
Qed.

Lemma Rdiv_ge_bound (a b c : R) : 0 < b -> c * b <= a -> c <= a / b.
Proof.
  intros Hb H. apply Rmult_le_reg_r with b; [exact Hb |].
  unfold Rdiv. rewrite Rmult_assoc, Rinv_l by lra. lra.
Qed.

Lemma Rdiv_gt_bound (a b c : R) : 0 < b -> c * b < a -> c < a / b.
Proof.
  intros Hb H. apply Rmult_lt_reg_r with b; [exact Hb |].
  unfold Rdiv. rewrite Rmult_assoc, Rinv_l by lra. lra.
Qed.

(** For [0 < x <= c <= 1/2], [tan x < x * (1 + c)]. *)
Lemma tan_small_linear (x c : R) :
  0 < x <= c -> c <= / 2 -> tan x < x * (1 + c).
Proof.
  intros Hx Hc.
  assert (Hxx : x * x <= c * x) by nra.
  assert (Hcx : c * x <= / 2 * / 2) by nra.
  apply Rlt_le_trans with (x / (1 - x * x / 2));
    [apply tan_small_upper; lra |].
  apply Rdiv_le_bound; [lra |].
  assert (0 <= x * (c - x * x / 2 - c * (x * x) / 2)); [| lra].
  apply Rmult_le_pos; [lra |]. nra.
Qed.

Lemma atan_le_id (x : R) : 0 <= x -> atan x <= x.
Proof.
  intros Hx.
  assert (Hd : derivable (id - atan)%F).
  { apply derivable_minus; [apply derivable_id | exact derivable_pt_atan]. }
  assert (Hinc : increasing (id - atan)%F).
  { apply (nonneg_derivative_1 _ Hd). intros t.
    rewrite (pr_nu _ t (Hd t)
               (derivable_pt_minus _ _ t (derivable_pt_id t)
                  (derivable_pt_atan t))).
    rewrite derive_pt_minus, derive_pt_id, derive_pt_atan.
    unfold Rsqr.
    assert (0 < 1 + t * t) by nra.
    assert (1 / (1 + t * t) <= 1).
    { apply Rmult_le_reg_r with (1 + t * t); [lra |].
      unfold Rdiv. rewrite Rmult_assoc, Rinv_l by lra. nra. }
    lra. }
  specialize (Hinc 0 x Hx). unfold minus_fct, id in Hinc.
  rewrite atan_0 in Hinc. lra.
Qed.

End Trig.

(** ** Field of view to focal length *)

Section Fov2fl.

Lemma nmul_half_r (x : num) : (x * Fin 0.5)%J = (x / Fin 2)%J.
Proof.
  destruct x as [a | | |]; simpl; unfold inf_times;
    rewrite ?(Reqb_false 2 0), ?(Reqb_false 0.5 0), ?(Rltb_true 0 0.5),
      ?(Rltb_false 2 0) by lra; try reflexivity.
  f_equal. lra.
Qed.

(** [fov2fl] is the reference conversion in which only a non-positive
    angle is replaced by 1e-4. *)
Lemma fov2fl_is_reference (fov : num) :
  fov2fl fov = fov2fl_reference clamp_nonpositive fov.
Proof.
  unfold fov2fl, fov2fl_reference, clamp_nonpositive. cbv zeta.
  rewrite nmul_half_r. reflexivity.
Qed.

(** The focal length of a finite angle whose half has a non-zero tangent. *)
Lemma fov2fl_reference_fin (clamp : num -> num) (f r : R) :
  clamp (degToRad (Fin f)) = Fin r ->
  tan (r / 2) <> 0 ->
  fov2fl_reference clamp (Fin f) = Fin (Rround (12 / tan (r / 2))).
Proof.
  intros Hc Ht. unfold fov2fl_reference. rewrite Hc.
  rewrite (ndiv_fin r 2) by lra. cbn [ntan].
  rewrite ndiv_fin by exact Ht. reflexivity.
Qed.

Lemma tan_pos_small (x : R) : 0 < x <= 1 -> 0 < tan x.
Proof.
  intros Hx. pose proof PI_lower. apply tan_gt_0; lra.
Qed.

End Fov2fl.

(** C7, as stated, fails: 0.001 degrees is a positive angle below 1e-4
    radians, and [fov2fl] uses it as it is, not 1e-4: the focal length it
    returns is more than twice the one computed from 1e-4 radians. *)
Lemma fov2fl_clamp_counterexample :
  exists r : R,
    degToRad (Fin 0.001) = Fin r
    /\ 0 < r < 0.0001
    /\ fov2fl (Fin 0.001) = Fin (Rround (12 / tan (r / 2)))
    /\ fov2fl_reference clamp_min (Fin 0.001)
       = Fin (Rround (12 / tan (0.0001 / 2)))
    /\ fov2fl (Fin 0.001) <> fov2fl_reference clamp_min (Fin 0.001).
Proof.
  pose proof PI_lower as Hpl. pose proof PI_4 as Hpu.
  exists (0.001 * (PI / 180)).
  assert (Hr' : 0 < 0.001 * (PI / 180) < 0.000023) by lra.
  set (r := 0.001 * (PI / 180)) in *.
  assert (Hr : 0 < r < 0.0001) by lra.
  assert (Hdeg : degToRad (Fin 0.001) = Fin r) by apply degToRad_fin.
  assert (Ha : 0 < tan (r / 2)) by (apply tan_pos_small; lra).
  assert (Hb : 0 < tan (0.0001 / 2)) by (apply tan_pos_small; lra).
  assert (Hcode : fov2fl (Fin 0.001) = Fin (Rround (12 / tan (r / 2)))).
  { rewrite fov2fl_is_reference. apply fov2fl_reference_fin; [| lra].
    rewrite Hdeg. unfold clamp_nonpositive. simpl.
    rewrite Rleb_false by lra. reflexivity. }
  assert (Hspec : fov2fl_reference clamp_min (Fin 0.001)
                  = Fin (Rround (12 / tan (0.0001 / 2)))).
  { apply fov2fl_reference_fin; [| lra].
    rewrite Hdeg. unfold clamp_min. simpl.
    rewrite Rltb_true by lra. reflexivity. }
  split; [exact Hdeg |]. split; [exact Hr |].
  split; [exact Hcode |]. split; [exact Hspec |].
  rewrite Hcode, Hspec. intros H. injection H as H.
  (* the code's value exceeds 500000, the claimed one is below 250000 *)
  assert (Hup : tan (r / 2) < 0.000024).
  { apply Rlt_le_trans with (r / 2 * (1 + / 2));
      [apply tan_small_linear; lra | lra]. }
  assert (Hlo : 0.000049 <= tan (0.0001 / 2)).
  { apply Rle_trans with (0.0001 / 2 - 0.0001 / 2 * (0.0001 / 2) * (0.0001 / 2) / 6);
      [lra | apply tan_small_lower; lra]. }
  assert (HA : 500000 < 12 / tan (r / 2))
    by (apply Rdiv_gt_bound; lra).
  assert (HB : 12 / tan (0.0001 / 2) < 250000)
    by (apply Rdiv_lt_bound; lra).
  pose proof (Rround_bounds (12 / tan (r / 2))).
  pose proof (Rround_bounds (12 / tan (0.0001 / 2))).
  lra.
Qed.

(** C7, amended.  For every input [fov2fl(fov)] is
    [round(12.0 / tan(rads/2))] where [rads] is the input converted to
    radians and replaced by 1e-4 only when it is zero or negative; every
    positive angle, however small, is used as it is. *)
Theorem fov2fl_reference_nonpositive :
  (forall fov : num, fov2fl fov = fov2fl_reference clamp_nonpositive fov)
  /\ (forall r : R, r <= 0 -> clamp_nonpositive (Fin r) = Fin 0.0001)
  /\ (forall r : R, 0 < r -> clamp_nonpositive (Fin r) = Fin r).
Proof.
  split; [exact fov2fl_is_reference |].
  split; intros r Hr; unfold clamp_nonpositive; simpl.
  - rewrite Rleb_true by lra. reflexivity.
  - rewrite Rleb_false by lra. reflexivity.
Qed.

Lemma fov2fl_reference_nonpositive_witness :
  clamp_nonpositive (Fin 0.00005) = Fin 0.00005
  /\ clamp_nonpositive (Fin (-1)) = Fin 0.0001.
Proof.
  destruct fov2fl_reference_nonpositive as (_ & Hneg & Hpos).
  split; [apply Hpos | apply Hneg]; lra.
Defined.

(** ** The round trip through the focal length *)

Section RoundTrip.

(** [tan] of an angle a little above a quarter turn of [PI]. *)
Lemma tan_PI4_plus (x : R) :
  0 < x < PI / 4 ->
  0 < tan x < 1 /\ tan (PI / 4 + x) = (1 + tan x) / (1 - tan x).
Proof.
  intros Hx. pose proof PI_RGT_0 as Hpi.
  assert (Ht0 : 0 < tan x) by (apply tan_gt_0; lra).
  assert (Ht1 : tan x < 1).
  { rewrite <- tan_PI4. apply tan_increasing; lra. }
  split; [lra |].
  rewrite tan_plus, tan_PI4.
  - f_equal; ring.
  - apply Rgt_not_eq, cos_gt_0; lra.
  - apply Rgt_not_eq, cos_gt_0; lra.
  - apply Rgt_not_eq, cos_gt_0; lra.
  - rewrite tan_PI4. lra.
Qed.

(** The focal length of a field of view strictly between 0 and 180
    degrees. *)
Lemma fov2fl_fin (f : R) :
  0 < f < 180 ->
  0 < tan (f * (PI / 180) / 2)
  /\ fov2fl (Fin f) = Fin (Rround (12 / tan (f * (PI / 180) / 2))).
Proof.
  intros Hf. pose proof PI_RGT_0 as Hpi.
  assert (Hr : 0 < f * (PI / 180)) by (apply Rmult_lt_0_compat; lra).
  assert (Hh : f * (PI / 180) / 2 < PI / 2).
  { replace (PI / 2) with (180 * (PI / 180) / 2) by field.
    apply Rmult_lt_compat_r; [lra |].
    apply Rmult_lt_compat_r; lra. }
  assert (Ht : 0 < tan (f * (PI / 180) / 2)) by (apply tan_gt_0; lra).
  split; [exact Ht |].
  rewrite fov2fl_is_reference. apply fov2fl_reference_fin; [| lra].
  rewrite degToRad_fin. unfold clamp_nonpositive. simpl.
  rewrite Rleb_false by lra. reflexivity.
Qed.

(** The field of view of a positive focal length. *)
Lemma fl2fov_fin (m : R) :
  0 < m -> fl2fov (Fin m) = Fin (2 * atan (12 / m) * (180 / PI)).
Proof.
  intros Hm. pose proof PI_RGT_0 as Hpi.
  unfold fl2fov, radToDeg, Math_PI. simpl.
  rewrite Rleb_false by lra. rewrite (Reqb_false m 0) by lra. simpl.
  rewrite (Reqb_false PI 0) by lra. reflexivity.
Qed.

(** At 92 degrees the focal length rounds to 12 mm, which converts back
    to 90 degrees. *)
Lemma fov2fl_92 : fov2fl (Fin 92) = Fin 12.
Proof.
  pose proof PI_lower as Hpl. pose proof PI_upper as Hpu.
  destruct (fov2fl_fin 92) as (Ht & ->); [lra |].
  f_equal. apply (Rround_eq _ 12).
  replace (92 * (PI / 180) / 2) with (PI / 4 + PI / 180) in * by field.
  destruct (tan_PI4_plus (PI / 180)) as ((Ht0 & Ht1) & Heq); [lra |].
  assert (Hsmall : tan (PI / 180) < 0.02).
  { apply Rlt_le_trans with (PI / 180 * (1 + 0.02));
      [apply tan_small_linear; lra | lra]. }
  rewrite Heq in *.
  assert (Hlo : 1 < (1 + tan (PI / 180)) / (1 - tan (PI / 180)))
    by (apply Rdiv_gt_bound; lra).
  assert (Hhi : (1 + tan (PI / 180)) / (1 - tan (PI / 180)) <= 1.041)
    by (apply Rdiv_le_bound; lra).
  split.
  - apply Rdiv_ge_bound; lra.
  - apply Rdiv_lt_bound; lra.
Qed.

Lemma fl2fov_12 : fl2fov (Fin 12) = Fin 90.
Proof.
  pose proof PI_RGT_0 as Hpi.
  rewrite fl2fov_fin by lra. f_equal.
  replace (12 / 12) with 1 by field. rewrite atan_1. field. lra.
Qed.

End RoundTrip.

(** C8, as stated, fails: 92 degrees is a legal field of view, its focal
    length rounds to 12 mm, and 12 mm converts back to 90 degrees, two
    degrees away. *)
Lemma fov_round_trip_counterexample :
  (kMinFOV <=? Fin 92)%J = true
  /\ (Fin 92 <=? kMaxFOV)%J = true
  /\ fl2fov (fov2fl (Fin 92)) = Fin 90
  /\ (nabs (fl2fov (fov2fl (Fin 92)) - Fin 92) <=? Fin 1)%J = false.
Proof.
  rewrite fov2fl_92, fl2fov_12. unfold kMinFOV, kMaxFOV. simpl.
  rewrite !Rleb_true by lra.
  repeat split. apply Rleb_false.
  unfold Rabs. destruct (Rcase_abs (90 - 92)); lra.
Qed.

Section RoundTripBound.

Lemma tan_50_degrees : tan (PI / 4 + PI / 36) <= 1.24.
Proof.
  pose proof PI_lower as Hpl. pose proof PI_upper as Hpu.
  destruct (tan_PI4_plus (PI / 36)) as ((Ht0 & Ht1) & ->); [lra |].
  assert (Hsmall : tan (PI / 36) < 0.106).
  { apply Rlt_le_trans with (PI / 36 * (1 + 0.1));
      [apply tan_small_linear; lra | lra]. }
  apply Rdiv_le_bound; lra.
Qed.

Lemma atan_abs_le (w : R) : Rabs (atan w) <= Rabs w.
Proof.
  destruct (Rle_lt_dec 0 w) as [Hw | Hw].
  - pose proof (atan_le_id w Hw) as H.
    assert (0 <= atan w).
    { destruct Hw as [Hw | <-]; [| rewrite atan_0; lra].
      rewrite <- atan_0. left. apply atan_increasing. exact Hw. }
    rewrite !Rabs_pos_eq by lra. exact H.
  - pose proof (atan_le_id (- w) ltac:(lra)) as H.
    rewrite atan_opp in H.
    assert (atan w < 0).
    { rewrite <- atan_0. apply atan_increasing. exact Hw. }
    rewrite !Rabs_left by lra. lra.
Qed.

Lemma atan_pos (u : R) : 0 < u -> 0 < atan u < PI / 2.
Proof.
  intros Hu. split.
  - rewrite <- atan_0. apply atan_increasing. exact Hu.
  - apply atan_bound.
Qed.

Lemma atan_diff_bound (u v : R) :
  0 < u -> 0 < v ->
  Rabs (atan u - atan v) <= Rabs ((u - v) / (1 + u * v)).
Proof.
  intros Hu Hv.
  pose proof (atan_pos u Hu). pose proof (atan_pos v Hv).
  assert (Hp : 0 < u * v) by (apply Rmult_lt_0_compat; assumption).
  rewrite (atan_sub_correct u v).
  - replace (atan v + atan (atan_sub u v) - atan v)
      with (atan (atan_sub u v)) by ring.
    apply atan_abs_le.
  - lra.
  - split; lra.
  - apply atan_bound.
Qed.

(** The real-number content of the round trip: the focal length of a
    legal field of view is at least 10 mm after rounding, and the angle
    it converts back to is within 3 degrees. *)
Lemma round_trip_real (f : R) :
  6.88 <= f <= 100 ->
  let F := 12 / tan (f * (PI / 180) / 2) in
  0 < Rround F
  /\ Rabs (2 * atan (12 / Rround F) * (180 / PI) - f) <= 3.
Proof.
  intros Hf F. pose proof PI_lower as Hpl. pose proof PI_upper as Hpu.
  set (h := f * (PI / 180) / 2) in *.
  assert (Hfp : 0 < f * PI <= 100 * PI) by nra.
  assert (Hh : 0 < h <= PI / 4 + PI / 36) by (unfold h; lra).
  assert (HT : 0 < tan h) by (apply tan_gt_0; lra).
  assert (HT50 : tan h <= 1.24).
  { apply Rle_trans with (tan (PI / 4 + PI / 36)); [| apply tan_50_degrees].
    destruct (proj2 Hh) as [Hlt | ->]; [| lra].
    left. apply tan_increasing; lra. }
  assert (HF : 9.67 <= F) by (apply Rdiv_ge_bound; lra).
  pose proof (Rround_bounds F) as Hm.
  assert (Hm10 : 10 <= Rround F).
  { unfold Rround in *. apply IZR_le.
    assert (9 < Int_part (F + / 2))%Z; [| lia].
    apply lt_IZR. lra. }
  set (m := Rround F) in *.
  split; [lra |].
  assert (Hatan : atan (12 / F) = h).
  { unfold F. replace (12 / (12 / tan h)) with (tan h) by (field; lra).
    apply atan_tan. lra. }
  replace (2 * atan (12 / m) * (180 / PI) - f)
    with (360 / PI * (atan (12 / m) - atan (12 / F)))
    by (rewrite Hatan; unfold h; field; lra).
  assert (Hu : 0 < 12 / m) by (apply Rdiv_lt_0_compat; lra).
  assert (Hv : 0 < 12 / F) by (apply Rdiv_lt_0_compat; lra).
  pose proof (atan_diff_bound _ _ Hu Hv) as Hd.
  assert (Hw : (12 / m - 12 / F) / (1 + 12 / m * (12 / F))
               = 12 * (F - m) / (m * F + 144)).
  { field. repeat split; try lra. nra. }
  rewrite Hw in Hd.
  assert (HP : 240 <= m * F + 144) by nra.
  assert (Hw' : Rabs (12 * (F - m) / (m * F + 144)) <= 6 / 240).
  { unfold Rdiv at 1. rewrite Rabs_mult, (Rabs_pos_eq (/ _)).
    2: { left. apply Rinv_0_lt_compat. lra. }
    apply Rle_trans with (6 * / (m * F + 144)).
    - apply Rmult_le_compat_r; [left; apply Rinv_0_lt_compat; lra |].
      unfold Rabs. destruct (Rcase_abs (12 * (F - m))); lra.
    - apply Rmult_le_compat_l; [lra |].
      apply Rinv_le_contravar; lra. }
  rewrite Rabs_mult, (Rabs_pos_eq (360 / PI)).
  2: { left. apply Rdiv_lt_0_compat; lra. }
  apply Rle_trans with (360 / PI * (6 / 240)).
  - apply Rmult_le_compat_l; [left; apply Rdiv_lt_0_compat; lra | lra].
  - replace (360 / PI * (6 / 240)) with (9 / PI) by (field; lra).
    apply Rdiv_le_bound; lra.
Qed.

End RoundTripBound.

(** C8, amended.  For every field of view in the legal range
    [[kMinFOV, kMaxFOV]] = [[6.88, 100]] degrees the round trip
    [fl2fov(fov2fl(fov))] is a finite angle that differs from [fov] by at
    most 3 degrees (the rounding of the focal length to a whole number of
    millimetres costs up to about 2.8 degrees near the wide end). *)
Theorem fov_round_trip_within_3 (f : R) :
  (kMinFOV <=? Fin f)%J = true ->
  (Fin f <=? kMaxFOV)%J = true ->
  exists g : R,
    fl2fov (fov2fl (Fin f)) = Fin g
    /\ Rabs (g - f) <= 3
    /\ (nabs (fl2fov (fov2fl (Fin f)) - Fin f) <=? Fin 3)%J = true.
Proof.
  unfold kMinFOV, kMaxFOV. simpl. rewrite !Rleb_spec. intros Hlo Hhi.
  destruct (round_trip_real f (conj Hlo Hhi)) as (Hm & Hd).
  destruct (fov2fl_fin f) as (_ & ->); [lra |].
  rewrite fl2fov_fin by exact Hm.
  eexists. split; [reflexivity |]. split; [exact Hd |].
  simpl. apply Rleb_true. exact Hd.
Qed.

Lemma fov_round_trip_within_3_witness :
  exists g : R,
    fl2fov (fov2fl (Fin 92)) = Fin g
    /\ Rabs (g - 92) <= 3
    /\ (nabs (fl2fov (fov2fl (Fin 92)) - Fin 92) <=? Fin 3)%J = true.
Proof.
  apply (fov_round_trip_within_3 92);
    unfold kMinFOV, kMaxFOV; simpl; apply Rleb_true; lra.
Defined.


(** * Further properties of the navigation core *)

(** ** [snapToAxis] *)

Section Snap.

Lemma Rabs_m1 : Rabs (-1) = 1.
Proof. unfold Rabs. destruct (Rcase_abs (-1)); lra. Qed.

(** The six signed unit axes. *)
Lemma snapToAxis_cases (v : vec) :
  snapToAxis v = RV 1 0 0 \/ snapToAxis v = RV (-1) 0 0
  \/ snapToAxis v = RV 0 1 0 \/ snapToAxis v = RV 0 (-1) 0
  \/ snapToAxis v = RV 0 0 1 \/ snapToAxis v = RV 0 0 (-1).
Proof.
  unfold snapToAxis. cbv zeta.
  destruct (_ && _).
  - destruct (THREE.x v >? Fin 0)%J; tauto.
  - destruct (_ && _).
    + destruct (THREE.y v >? Fin 0)%J; tauto.
    + destruct (THREE.z v >? Fin 0)%J; tauto.
Qed.

Lemma snapToAxis_fixes_axes :
  snapToAxis (RV 1 0 0) = RV 1 0 0 /\ snapToAxis (RV (-1) 0 0) = RV (-1) 0 0
  /\ snapToAxis (RV 0 1 0) = RV 0 1 0 /\ snapToAxis (RV 0 (-1) 0) = RV 0 (-1) 0
  /\ snapToAxis (RV 0 0 1) = RV 0 0 1 /\ snapToAxis (RV 0 0 (-1)) = RV 0 0 (-1).
Proof.
  unfold snapToAxis, ngt, RV. simpl.
  rewrite ?Rabs_R0, ?Rabs_R1, ?Rabs_m1.
  rewrite ?(Rltb_true 0 1), ?(Rltb_false 1 0), ?(Rltb_false 0 0),
    ?(Rltb_false 0 (-1)), ?(Rltb_true (-1) 0), ?(Rltb_false 1 1) by lra.
  simpl. repeat split; reflexivity.
Qed.

End Snap.

(** X1.  [snapToAxis] returns one of the six signed unit axes whatever its
    argument (not-a-number components included), snapping twice is snapping
    once, and for a finite vector whose X (resp. Y) component is strictly
    the largest in absolute value the result is the X (resp. Y) axis with
    the sign of that component; in every other case, that is whenever
    neither X nor Y is strictly the largest (Z the largest, or any tie for
    the largest), the result is the Z axis, positive when the Z component
    is positive and negative otherwise. *)
Theorem snapToAxis_spec :
  (forall v : vec,
      snapToAxis v = RV 1 0 0 \/ snapToAxis v = RV (-1) 0 0
      \/ snapToAxis v = RV 0 1 0 \/ snapToAxis v = RV 0 (-1) 0
      \/ snapToAxis v = RV 0 0 1 \/ snapToAxis v = RV 0 0 (-1))
  /\ (forall v : vec, snapToAxis (snapToAxis v) = snapToAxis v)
  /\ (forall a b c : R,
         Rabs b < Rabs a -> Rabs c < Rabs a ->
         snapToAxis (RV a b c) = RV (if Rltb 0 a then 1 else -1) 0 0)
  /\ (forall a b c : R,
         Rabs a < Rabs b -> Rabs c < Rabs b ->
         snapToAxis (RV a b c) = RV 0 (if Rltb 0 b then 1 else -1) 0)
  /\ (forall a b c : R,
         ~ (Rabs b < Rabs a /\ Rabs c < Rabs a) ->
         ~ (Rabs a < Rabs b /\ Rabs c < Rabs b) ->
         snapToAxis (RV a b c) = RV 0 0 (if Rltb 0 c then 1 else -1)).
Proof.
  split; [exact snapToAxis_cases |]. split; [| split; [| split]].
  - intros v. destruct snapToAxis_fixes_axes as (H1 & H2 & H3 & H4 & H5 & H6).
    destruct (snapToAxis_cases v) as [-> | [-> | [-> | [-> | [-> | ->]]]]];
      assumption.
  - intros a b c Hb Hc. unfold snapToAxis, ngt, RV. simpl.
    rewrite (Rltb_true _ _ Hb), (Rltb_true _ _ Hc). simpl.
    destruct (Rltb 0 a); reflexivity.
  - intros a b c Ha Hc. unfold snapToAxis, ngt, RV. simpl.
    rewrite (Rltb_false (Rabs b) (Rabs a)) by lra.
    rewrite (Rltb_true _ _ Ha), (Rltb_true _ _ Hc). simpl.
    destruct (Rltb 0 b); reflexivity.
  - intros a b c Hx Hy. unfold snapToAxis, ngt, RV. simpl.
    assert (H1 : Rltb (Rabs b) (Rabs a) && Rltb (Rabs c) (Rabs a) = false).
    { apply not_true_is_false. intros E. apply andb_true_iff in E.
      destruct E as (E1 & E2). apply Rltb_spec in E1, E2. tauto. }
    assert (H2 : Rltb (Rabs a) (Rabs b) && Rltb (Rabs c) (Rabs b) = false).
    { apply not_true_is_false. intros E. apply andb_true_iff in E.
      destruct E as (E1 & E2). apply Rltb_spec in E1, E2. tauto. }
    rewrite H1, H2. destruct (Rltb 0 c); reflexivity.
Qed.

Lemma snapToAxis_spec_witness :
  snapToAxis (RV 3 (-1) 2) = RV (if Rltb 0 3 then 1 else -1) 0 0
  /\ snapToAxis (RV 1 (-1) 5) = RV 0 0 (if Rltb 0 5 then 1 else -1).
Proof.
  destruct snapToAxis_spec as (_ & _ & Hx & _ & Hz).
  split.
  - apply Hx.
    + rewrite Rabs_m1, Rabs_pos_eq; lra.
    + rewrite !Rabs_pos_eq; lra.
  - apply Hz; rewrite Rabs_m1, !Rabs_pos_eq by lra; lra.
Defined.

(** ** The lock table and the option table *)

(** X2.  [setLockSettings(settings)] changes the values of the actions the
    lock table already has and nothing else: an action takes the value
    [settings] gives it, or keeps its own when [settings] does not have it;
    a key of [settings] that is not in the table is ignored (the table
    never gains a key), and the options are untouched.  [getLockSettings]
    then returns that table. *)
Theorem setLockSettings_spec (settings : gmap string jsval) (n : Navigation) :
  (forall action : string,
      getLockSettings (setLockSettings settings n) !! action
      = match __lockSettings n !! action with
        | Some old => Some (default old (settings !! action))
        | None => None
        end)
  /\ dom (getLockSettings (setLockSettings settings n)) = dom (__lockSettings n)
  /\ __options (setLockSettings settings n) = __options n
  /\ (forall action : string,
         __lockSettings n !! action = None ->
         isActionEnabled action (setLockSettings settings n)
         = isActionEnabled action n).
Proof.
  assert (Hl : forall action,
             getLockSettings (setLockSettings settings n) !! action
             = match __lockSettings n !! action with
               | Some old => Some (default old (settings !! action))
               | None => None
               end).
  { intros action. unfold getLockSettings, setLockSettings. simpl.
    rewrite map_lookup_imap. destruct (__lockSettings n !! action); reflexivity. }
  split; [exact Hl |]. split; [| split; [reflexivity |]].
  - apply set_eq. intros action. rewrite !elem_of_dom, Hl.
    destruct (__lockSettings n !! action); split; intros [v Hv];
      try discriminate; eauto.
  - intros action Hnone. unfold isActionEnabled.
    f_equal. unfold prop. unfold getLockSettings in Hl.
    rewrite Hl, Hnone. reflexivity.
Qed.

Lemma setLockSettings_spec_witness :
  isActionEnabled "fly" (setLockSettings {["fly" := JBool true]} locked0)
  = isActionEnabled "fly" locked0.
Proof.
  destruct (setLockSettings_spec {["fly" := JBool true]} locked0)
    as (_ & _ & _ & H).
  apply H. vm_compute. reflexivity.
Defined.

Section Options.

Lemma prop_insert_eq (o : gmap string jsval) (k : string) (v : jsval) :
  prop (<[k := v]> o) k = v.
Proof. unfold prop. rewrite lookup_insert_eq. reflexivity. Qed.

Lemma prop_insert_ne (o : gmap string jsval) (k k' : string) (v : jsval) :
  k <> k' -> prop (<[k := v]> o) k' = prop o k'.
Proof. intros H. unfold prop. rewrite lookup_insert_ne by exact H. reflexivity. Qed.

End Options.

(** X3.  The five options that are not tied to 2D round-trip through their
    setter and getter as booleans: after [set(state)] the getter returns
    [!!state].  Each setter writes its own property only, so every other
    option, the lock among them, reads as before. *)
Theorem option_setters_round_trip (state : jsval) (n : Navigation) :
  getReverseZoomDirection (setReverseZoomDirection state n) = JBool (truthy state)
  /\ getZoomTowardsPivot (setZoomTowardsPivot state n) = JBool (truthy state)
  /\ getUsePivotAlways (setUsePivotAlways state n) = JBool (truthy state)
  /\ getUseLeftHandedInput (setUseLeftHandedInput state n) = JBool (truthy state)
  /\ getIsLocked (setIsLocked state n) = JBool (truthy state)
  /\ (forall k : string,
         (k <> "reverseDolly" ->
          prop (__options (setReverseZoomDirection state n)) k = prop (__options n) k)
         /\ (k <> "dollyToPivot" ->
             prop (__options (setZoomTowardsPivot state n)) k = prop (__options n) k)
         /\ (k <> "usePivotAlways" ->
             prop (__options (setUsePivotAlways state n)) k = prop (__options n) k)
         /\ (k <> "useLeftHandedInput" ->
             prop (__options (setUseLeftHandedInput state n)) k
             = prop (__options n) k)
         /\ (k <> "lockNavigation" ->
             prop (__options (setIsLocked state n)) k = prop (__options n) k)).
Proof.
  repeat split;
    try (unfold getReverseZoomDirection, getZoomTowardsPivot, getUsePivotAlways,
           getUseLeftHandedInput, getIsLocked; simpl; apply prop_insert_eq);
    intros Hk; simpl; apply prop_insert_ne; congruence.
Qed.

Lemma option_setters_round_trip_witness :
  prop (__options (setReverseZoomDirection (JBool true) nav0)) "lockNavigation"
  = prop (__options nav0) "lockNavigation".
Proof.
  destruct (option_setters_round_trip (JBool true) nav0)
    as (_ & _ & _ & _ & _ & H).
  destruct (H "lockNavigation") as (H1 & _). apply H1. discriminate.
Defined.

(** X4.  In 2D mode the three setters that are not applicable to 2D change
    no option and log exactly one warning, and each of the three getters
    returns [false], logs exactly one warning and changes no option,
    whatever the option table holds. *)
Theorem not_applicable_to_2D (state : jsval) (n : Navigation) :
  getIs2D n = true ->
  (__options (setOrbitPastWorldPoles state n) = __options n
   /\ length (warnings (setOrbitPastWorldPoles state n))
      = S (length (warnings n)))
  /\ (__options (setReverseHorizontalLookDirection state n) = __options n
      /\ length (warnings (setReverseHorizontalLookDirection state n))
         = S (length (warnings n)))
  /\ (__options (setReverseVerticalLookDirection state n) = __options n
      /\ length (warnings (setReverseVerticalLookDirection state n))
         = S (length (warnings n)))
  /\ (fst (getOrbitPastWorldPoles n) = JBool false
      /\ __options (snd (getOrbitPastWorldPoles n)) = __options n
      /\ length (warnings (snd (getOrbitPastWorldPoles n)))
         = S (length (warnings n)))
  /\ (fst (getReverseHorizontalLookDirection n) = JBool false
      /\ __options (snd (getReverseHorizontalLookDirection n)) = __options n
      /\ length (warnings (snd (getReverseHorizontalLookDirection n)))
         = S (length (warnings n)))
  /\ (fst (getReverseVerticalLookDirection n) = JBool false
      /\ __options (snd (getReverseVerticalLookDirection n)) = __options n
      /\ length (warnings (snd (getReverseVerticalLookDirection n)))
         = S (length (warnings n))).
Proof.
  intros H2d.
  unfold setOrbitPastWorldPoles, setReverseHorizontalLookDirection,
    setReverseVerticalLookDirection, getOrbitPastWorldPoles,
    getReverseHorizontalLookDirection, getReverseVerticalLookDirection.
  rewrite H2d. simpl. rewrite !length_app. simpl.
  repeat split; lia.
Qed.

Lemma not_applicable_to_2D_witness :
  __options (setOrbitPastWorldPoles (JBool false) (setIs2D (JBool true) nav0))
  = __options (setIs2D (JBool true) nav0).
Proof.
  destruct (not_applicable_to_2D (JBool false) (setIs2D (JBool true) nav0))
    as ((H & _) & _); [reflexivity | exact H].
Defined.

(** X5.  Outside 2D mode [setOrbitPastWorldPoles] and
    [getOrbitPastWorldPoles] round-trip, and on a fresh object the getter
    returns the constructed default [true]. *)
Theorem orbitPastWorldPoles_round_trip (state : jsval) (n : Navigation) :
  getIs2D n = false ->
  getOrbitPastWorldPoles (setOrbitPastWorldPoles state n)
  = (JBool (truthy state), setOrbitPastWorldPoles state n)
  /\ (forall camera : option CameraArg,
         fst (getOrbitPastWorldPoles (Navigation_new camera)) = JBool true).
Proof.
  intros H2d. split.
  - unfold getOrbitPastWorldPoles, setOrbitPastWorldPoles. rewrite H2d.
    unfold getIs2D in *. simpl. rewrite H2d. simpl.
    rewrite prop_insert_eq. reflexivity.
  - intros camera. unfold getOrbitPastWorldPoles.
    destruct camera; reflexivity.
Qed.

Lemma orbitPastWorldPoles_round_trip_witness :
  getOrbitPastWorldPoles (setOrbitPastWorldPoles (JBool false) nav0)
  = (JBool false, setOrbitPastWorldPoles (JBool false) nav0).
Proof.
  exact (proj1 (orbitPastWorldPoles_round_trip (JBool false) nav0 eq_refl)).
Defined.

(** ** Requests, the lock and a missing camera *)

(** X6.  At most one transition request is live: a request issued on top
    of a pending one leaves the state exactly as if the first had never been
    made, and a false state clears the request (and never raises, camera or
    not).  Whatever the state, a setter that returns changes nothing but
    the stored request, so neither setter touches the transition-active
    flag; [setTransitionActive] sets that flag without touching the
    request. *)
Theorem transition_request_replaces (n : Navigation) (d : option DestinationView)
    (state : jsval) (pos coi : vec) (fov' : num) (reorient : bool)
    (up' : vec) (worldUp : option vec) :
  setRequestTransition state pos coi fov' reorient (set_destinationView d n)
  = setRequestTransition state pos coi fov' reorient n
  /\ setRequestTransitionWithUp state pos coi fov' up' worldUp
       (set_destinationView d n)
     = setRequestTransitionWithUp state pos coi fov' up' worldUp n
  /\ (truthy state = false ->
      exists n',
        setRequestTransition state pos coi fov' reorient n = Some n'
        /\ setRequestTransitionWithUp state pos coi fov' up' worldUp n = Some n'
        /\ getRequestTransition n' = None
        /\ getTransitionActive n' = getTransitionActive n)
  /\ (forall n' : Navigation,
         setRequestTransition state pos coi fov' reorient n = Some n' ->
         n' = set_destinationView (getRequestTransition n') n
         /\ getTransitionActive n' = getTransitionActive n)
  /\ (exists n' : Navigation,
         setRequestTransitionWithUp state pos coi fov' up' worldUp n = Some n'
         /\ n' = set_destinationView (getRequestTransition n') n
         /\ getTransitionActive n' = getTransitionActive n)
  /\ getRequestTransition (setTransitionActive state n) = getRequestTransition n
  /\ getTransitionActive (setTransitionActive state n) = truthy state.
Proof.
  split; [| split; [| split; [| split; [| split; [| split]]]]].
  - unfold setRequestTransition. destruct (truthy state); [| reflexivity].
    unfold getCamera. simpl. destruct (_camera n); reflexivity.
  - unfold setRequestTransitionWithUp. destruct (truthy state); reflexivity.
  - intros Hs. unfold setRequestTransition, setRequestTransitionWithUp.
    rewrite Hs. eexists. repeat split.
  - intros n'. unfold setRequestTransition.
    destruct (truthy state).
    + destruct (getCamera n) as [c |]; cbn [mbind option_bind];
        [| discriminate].
      intros H. injection H as <-. split; reflexivity.
    + intros H. injection H as <-. split; reflexivity.
  - unfold setRequestTransitionWithUp.
    destruct (truthy state); eexists; repeat split.
  - reflexivity.
  - reflexivity.
Qed.

Lemma transition_request_replaces_witness :
  exists n',
    setRequestTransition (JBool false) (RV 1 2 3) (RV 0 0 0) (Fin 45) false
      (set_camera None nav0) = Some n'
    /\ getRequestTransition n' = None.
Proof.
  destruct (transition_request_replaces (set_camera None nav0) None (JBool false)
              (RV 1 2 3) (RV 0 0 0) (Fin 45) false (RV 0 1 0) None)
    as (_ & _ & H & _).
  destruct (H eq_refl) as (n' & H1 & _ & H3 & _).
  exists n'. split; assumption.
Defined.

(** X7.  The fit-to-view and home-view request flags follow their setter
    while ['gotoview'] is enabled, each setter leaving the other flag
    alone.  While it is disabled each setter does nothing at all, whatever
    the state passed, so a request that is pending when navigation gets
    locked cannot be cleared until the lock is lifted. *)
Theorem view_request_flags (state : jsval) (n : Navigation) :
  (isActionEnabled "gotoview" n = true ->
   getRequestFitToView (setRequestFitToView state n) = truthy state
   /\ getRequestHomeView (setRequestHomeView state n) = truthy state
   /\ getRequestHomeView (setRequestFitToView state n) = getRequestHomeView n
   /\ getRequestFitToView (setRequestHomeView state n) = getRequestFitToView n)
  /\ (isActionEnabled "gotoview" n = false ->
      setRequestFitToView state n = n /\ setRequestHomeView state n = n)
  /\ (is_true (prop (__lockSettings n) "gotoview") = false ->
      setRequestFitToView state (setIsLocked (JBool true) n)
      = setIsLocked (JBool true) n
      /\ setRequestHomeView state (setIsLocked (JBool true) n)
         = setIsLocked (JBool true) n
      /\ getRequestFitToView
           (setRequestFitToView (JBool false) (setIsLocked (JBool true) n))
         = getRequestFitToView n
      /\ getRequestHomeView
           (setRequestHomeView (JBool false) (setIsLocked (JBool true) n))
         = getRequestHomeView n).
Proof.
  split; [| split].
  - intros Hen. unfold setRequestFitToView, setRequestHomeView. rewrite Hen.
    repeat split.
  - intros Hdis. split.
    + apply setRequestFitToView_locked. exact Hdis.
    + apply setRequestHomeView_locked. exact Hdis.
  - intros Hset.
    assert (Hdis : isActionEnabled "gotoview" (setIsLocked (JBool true) n) = false).
    { rewrite isActionEnabled_unfold, getIsLocked_setIsLocked,
        lockSettings_setIsLocked, Hset. reflexivity. }
    rewrite !setRequestFitToView_locked, !setRequestHomeView_locked
      by exact Hdis.
    repeat split.
Qed.

Lemma view_request_flags_witness :
  getRequestFitToView
    (setRequestFitToView (JBool false)
       (setIsLocked (JBool true) (setRequestFitToView (JBool true) nav0)))
  = true.
Proof.
  destruct (view_request_flags (JBool false)
              (setRequestFitToView (JBool true) nav0)) as (_ & _ & H).
  destruct H as (_ & _ & H & _); [vm_compute; reflexivity |].
  rewrite H. reflexivity.
Defined.

(** X8.  When every action is disabled (navigation locked, no exception in
    the lock table), the operators leave the object exactly as it is and
    raise no error, with or without a camera: pan, dolly, field of view and
    focal length, camera up, world up, fit, and the fit and home requests.
    The plain setters [setView], [setPosition], [setTarget] and
    [setPivotPoint] are not gated: on a locked object they still move the
    camera. *)
Theorem locked_navigation_freezes
    (isPointVisible : Camera -> vec -> bool) (n : Navigation) :
  (forall a : string, isActionEnabled a n = false) ->
  (forall dx dy dist, panRelative dx dy dist n = Some n)
  /\ (forall distance point, dollyFromPoint distance point n = Some n)
  /\ (forall f adjust, setVerticalFov isPointVisible f adjust n = n)
  /\ (forall mm adjust, setFocalLength isPointVisible mm adjust n = n)
  /\ (forall u, setCameraUpVector u n = Some n)
  /\ (forall u reorient, setWorldUpVector u reorient n = Some n)
  /\ orientCameraUp n = Some n
  /\ (forall immediate bounds reorient,
         fitBounds immediate bounds reorient n
         = Some (mkFit (getPosition n) (getTarget n), n))
  /\ (forall state, setRequestFitToView state n = n
                    /\ setRequestHomeView state n = n)
  /\ (forall (c : Camera) (p t : vec),
         getCamera n = Some c ->
         getPosition (setView p t n) = p
         /\ getTarget (setView p t n) = t
         /\ getPosition (setPosition p n) = p
         /\ getTarget (setTarget t n) = t
         /\ getPivotPoint (setPivotPoint p n) = p).
Proof.
  intros Hall.
  assert (Hv : forall f adjust, setVerticalFov isPointVisible f adjust n = n).
  { intros f adjust. unfold setVerticalFov.
    destruct (_camera n) as [c |]; [| reflexivity].
    destruct (negb (isPerspective c)); [reflexivity |].
    cbv zeta. rewrite (Hall "fov"). reflexivity. }
  repeat split.
  - intros dx dy dist. unfold panRelative. rewrite (Hall "pan"). reflexivity.
  - intros distance point. unfold dollyFromPoint. rewrite (Hall "zoom").
    reflexivity.
  - exact Hv.
  - intros mm adjust. apply Hv.
  - intros u. unfold setCameraUpVector. rewrite (Hall "roll"). reflexivity.
  - intros u reorient. unfold setWorldUpVector. rewrite (Hall "roll").
    reflexivity.
  - unfold orientCameraUp. rewrite (Hall "roll").
    destruct (_camera n); reflexivity.
  - intros immediate bounds reorient. apply fitBounds_locked, Hall.
  - apply setRequestFitToView_locked, Hall.
  - apply setRequestHomeView_locked, Hall.
  - apply (getPosition_setView n c H).
  - apply (getTarget_setView n c H).
  - unfold setPosition, getPosition. unfold getCamera in H. rewrite H. reflexivity.
  - unfold setTarget, getTarget. unfold getCamera in H. rewrite H. reflexivity.
  - unfold setPivotPoint, getPivotPoint. unfold getCamera in H. rewrite H.
    reflexivity.
Qed.

Lemma locked_navigation_freezes_witness :
  dollyFromPoint (Fin 5) (RV 0 0 0) locked0 = Some locked0.
Proof.
  destruct (locked_navigation_freezes (fun _ _ => true) locked0)
    as (_ & H & _).
  - intros a. rewrite isActionEnabled_unfold. unfold locked0.
    rewrite getIsLocked_setIsLocked, lockSettings_setIsLocked.
    unfold nav0. rewrite lockSettings_new. simpl.
    apply initial_lockSettings_false.
  - apply H.
Defined.

(** X9.  Without a camera the plain setters, [setVerticalFov], [__setUp]
    and [orientCameraUp] are silent no-ops and the getters return fixed
    defaults, but the operations that read the camera unguarded raise a
    [TypeError]: [getVerticalFov], [getFocalLength], [getHorizontalFov],
    [getWorldSize], [getWorldPoint], [getCameraRightVector(false)],
    [getCameraUpVector], and, when their action is enabled,
    [setCameraUpVector], [panRelative], [setRequestTransition] with a true
    state and [fitBounds] on non-empty bounds. *)
Theorem without_camera
    (isPointVisible : Camera -> vec -> bool)
    (unproject : Camera -> vec -> vec) (n : Navigation) :
  getCamera n = None ->
  (forall p t, setView p t n = n /\ setPosition p n = n /\ setTarget t n = n
               /\ setPivotPoint p n = n)
  /\ (forall f adjust, setVerticalFov isPointVisible f adjust n = n)
  /\ (forall u, __setUp u n = (false, n))
  /\ orientCameraUp n = Some n
  /\ getPosition n = RV 0 0 1
  /\ getTarget n = RV 0 0 0
  /\ getPivotPoint n = RV 0 0 0
  /\ getWorldUpVector n = RV 0 1 0
  /\ getVerticalFov n = None
  /\ getFocalLength n = None
  /\ getHorizontalFov n = None
  /\ (forall d, getWorldSize d n = None)
  /\ (forall x y, getWorldPoint isPointVisible unproject x y n = None)
  /\ getCameraRightVector false n = None
  /\ getCameraUpVector n = None
  /\ (forall u, isActionEnabled "roll" n = true -> setCameraUpVector u n = None)
  /\ (forall dx dy dist,
         isActionEnabled "pan" n = true -> panRelative dx dy dist n = None)
  /\ (forall state pos coi f reorient,
         truthy state = true ->
         setRequestTransition state pos coi f reorient n = None)
  /\ (forall immediate b reorient,
         isActionEnabled "gotoview" n = true -> THREE.empty b = false ->
         fitBounds immediate (Some b) reorient n = None).
Proof.
  intros Hc. unfold getCamera in Hc.
  repeat split;
    try (unfold setView, setPosition, setTarget, setPivotPoint, setVerticalFov,
           orientCameraUp, getPosition, getTarget, getPivotPoint,
           getWorldUpVector, __getUp, getVerticalFov, getFocalLength,
           getHorizontalFov, getVerticalFov, getWorldSize, getWorldPoint,
           getCameraRightVector, getCameraUpVector, getCameraRightVector,
           getCamera;
         rewrite ?Hc; reflexivity).
  - intros u. unfold __setUp. rewrite Hc. destruct u; reflexivity.
  - intros u Hen. unfold setCameraUpVector, getCamera. rewrite Hen, Hc.
    reflexivity.
  - intros dx dy dist Hen. unfold panRelative, getWorldSize, getCamera.
    rewrite Hen, Hc. reflexivity.
  - intros state pos coi f reorient Hs. unfold setRequestTransition, getCamera.
    rewrite Hs, Hc. reflexivity.
  - intros immediate b reorient Hen He. unfold fitBounds, getVerticalFov, getCamera.
    rewrite Hen, He, Hc. reflexivity.
Qed.

Lemma without_camera_witness :
  getFocalLength (uninitialize nav0) = None.
Proof.
  destruct (without_camera (fun _ _ => true) (fun _ v => v) (uninitialize nav0))
    as (_ & _ & _ & _ & _ & _ & _ & _ & _ & H & _); [reflexivity | exact H].
Defined.

(** X10.  In every state, with a camera or on the defaults used without
    one, the eye vector is the target minus the position; and with a camera
    [setView] is read back by [getPosition] and [getTarget], marks the
    camera dirty and leaves the pivot, [up] and the field of view alone. *)
Theorem eye_vector_is_target_minus_position (n : Navigation) :
  getEyeVector n = THREE.sub (getTarget n) (getPosition n)
  /\ (forall (c : Camera) (p t : vec),
         getCamera n = Some c ->
         getPosition (setView p t n) = p
         /\ getTarget (setView p t n) = t
         /\ getEyeVector (setView p t n) = THREE.sub t p
         /\ getCamera (setView p t n)
            = Some (mkCamera p t (pivot c) (up c) (worldup c) (fov c)
                      (isPerspective c) (near c) (far c) (orthoScale c) true)).
Proof.
  split.
  - unfold getEyeVector, getTarget, getPosition.
    destruct (_camera n); [reflexivity |].
    unfold THREE.sub, RV. simpl. f_equal; f_equal; ring.
  - intros c p t Hc. unfold getCamera in Hc.
    unfold setView, getPosition, getTarget, getEyeVector, getCamera.
    rewrite Hc. repeat split.
Qed.

Lemma eye_vector_is_target_minus_position_witness :
  getEyeVector (setView (RV 1 1 1) (RV 2 2 2) nav0)
  = THREE.sub (RV 2 2 2) (RV 1 1 1).
Proof.
  destruct (eye_vector_is_target_minus_position nav0) as (_ & H).
  destruct (H installed0 (RV 1 1 1) (RV 2 2 2) eq_refl) as (_ & _ & H3 & _).
  exact H3.
Defined.

(** ** Fit to view *)

(** X11.  [fitBounds] on non-empty bounds, with ['gotoview'] enabled and a
    camera, returns the fit computed from the current position, target and
    field of view, moves the pivot to the fit target and sets the pivot
    flag.  When immediate it moves the camera to the fit and stores no
    request; otherwise it leaves the camera where it is and stores a request
    for the fit, with the camera's field of view and world up, the up vector
    being the orthogonal up when [reorient] is set and the camera's up
    otherwise. *)
Theorem fitBounds_effect (n : Navigation) (c : Camera) (b : THREE.Box3)
    (immediate reorient : bool) :
  getCamera n = Some c ->
  isActionEnabled "gotoview" n = true ->
  THREE.empty b = false ->
  let fit := computeFit (position c) (target c) (fov c) (Some b) n in
  let up' :=
    if reorient then computeOrthogonalUp (position c) (target c) n else up c in
  exists n' : Navigation,
    fitBounds immediate (Some b) reorient n = Some (fit, n')
    /\ fit_target fit = THREE.center b
    /\ getPivotPoint n' = fit_target fit
    /\ getPivotSetFlag n' = true
    /\ (if immediate then
          getPosition n' = fit_position fit
          /\ getTarget n' = fit_target fit
          /\ (up <$> getCamera n') = Some up'
          /\ getRequestTransition n' = getRequestTransition n
        else
          getPosition n' = position c
          /\ getTarget n' = target c
          /\ (up <$> getCamera n') = Some (up c)
          /\ getRequestTransition n'
             = Some (mkDestinationView (fit_position fit) (fit_target fit)
                       (fov c) up' (worldup c) false)).
Proof.
  intros Hc Hen He fit up'. unfold getCamera in Hc.
  assert (Hft : fit_target fit = THREE.center b).
  { unfold fit, computeFit. rewrite He. reflexivity. }
  unfold fitBounds, getVerticalFov, getCamera, getPosition, getTarget.
  rewrite Hen, He, Hc. cbn [negb orb mbind option_bind]. fold fit.
  change (if reorient
          then computeOrthogonalUp (position c) (target c) n
          else up c) with up'.
  clearbody fit up'.
  destruct immediate.
  - eexists. split; [reflexivity |]. split; [exact Hft |].
    unfold setPivotPoint, setView, getPivotPoint, getPivotSetFlag,
      setPivotSetFlag, getRequestTransition, getCamera, getPosition, getTarget.
    simpl. repeat split.
  - unfold setRequestTransitionWithUp. cbn [truthy mbind option_bind].
    eexists. split; [reflexivity |]. split; [exact Hft |].
    unfold setPivotPoint, getPivotPoint, getPivotSetFlag, setPivotSetFlag,
      getRequestTransition, getCamera, getWorldUpVector, __getUp,
      getPosition, getTarget.
    simpl. rewrite Hc. simpl. repeat split.
Qed.

Lemma fitBounds_effect_witness :
  exists n' : Navigation,
    fitBounds false (Some box0) false nav0
    = Some (computeFit (position installed0) (target installed0)
              (fov installed0) (Some box0) nav0, n')
    /\ getPivotSetFlag n' = true.
Proof.
  destruct (fitBounds_effect nav0 installed0 box0 false false)
    as (n' & H1 & _ & _ & H4 & _).
  - reflexivity.
  - reflexivity.
  - unfold THREE.empty, box0, RV. simpl. rewrite !Rltb_false by lra. reflexivity.
  - exists n'. split; assumption.
Defined.

Section FitGeometry.



End FitGeometry.



(** ** Orthogonal frames *)

Section Frames.



Lemma sub_RV (a1 a2 a3 b1 b2 b3 : R) :
  THREE.sub (RV a1 a2 a3) (RV b1 b2 b3) = RV (a1 - b1) (a2 - b2) (a3 - b3).
Proof. reflexivity. Qed.



End Frames.



Section CameraFrame.

Variables e1 e2 e3 u1 u2 u3 : R.

Hypothesis not_parallel :
  (e2 * u3 - e3 * u2) * (e2 * u3 - e3 * u2)
  + (e3 * u1 - e1 * u3) * (e3 * u1 - e1 * u3)
  + (e1 * u2 - e2 * u1) * (e1 * u2 - e2 * u1) <> 0.


End CameraFrame.




Section OrientRegular.

Variables x1 x2 x3 z1 z2 z3 : R.
Hypothesis x_unit : x1 * x1 + x2 * x2 + x3 * x3 = 1.
Hypothesis z_unit : z1 * z1 + z2 * z2 + z3 * z3 = 1.
Hypothesis x_orth_z : x1 * z1 + x2 * z2 + x3 * z3 = 0.



End OrientRegular.



(** ** The world up *)

(** X16.  With a camera, [__setUp(up)] returns [true] exactly when the
    squared length of the difference between the normalised [up] and the
    world up is not zero: the world up is then the normalised [up] and
    the camera is dirty.  When it returns [false] the object is untouched.
    Position, target and the camera's own up are never changed, and setting
    the same finite vector a second time returns [false].
    [setWorldUpVector] without reorientation does the same when ['roll'] is
    enabled. *)
Theorem setUp_normalizes (n : Navigation) (c : Camera) (u : vec) :
  getCamera n = Some c ->
  let result := __setUp (Some u) n in
  fst result
  = (THREE.lengthSq (THREE.sub (THREE.normalize u) (__getUp n)) !== Fin 0)%J
  /\ (fst result = true ->
      __getUp (snd result) = THREE.normalize u
      /\ (dirty <$> getCamera (snd result)) = Some true)
  /\ (fst result = false -> snd result = n)
  /\ getPosition (snd result) = getPosition n
  /\ getTarget (snd result) = getTarget n
  /\ (up <$> getCamera (snd result)) = Some (up c)
  /\ (THREE.finite u = true -> fst (__setUp (Some u) (snd result)) = false)
  /\ (isActionEnabled "roll" n = true ->
      setWorldUpVector (Some u) false n = Some (snd result)).
Proof.
  intros Hc result. unfold getCamera in Hc.
  assert (Hres : result
                 = if (THREE.lengthSq
                         (THREE.sub (THREE.normalize u) (worldup c)) !== Fin 0)%J
                   then (true,
                         set_camera
                           (Some (cam_set_dirty true
                                    (cam_set_worldup (THREE.normalize u) c))) n)
                   else (false, n)).
  { unfold result, __setUp. rewrite Hc. reflexivity. }
  assert (Hw : __getUp n = worldup c) by (unfold __getUp; rewrite Hc; reflexivity).
  split.
  { rewrite Hres, Hw. destruct (THREE.lengthSq _ !== Fin 0)%J; reflexivity. }
  split.
  { rewrite Hres. destruct (THREE.lengthSq _ !== Fin 0)%J;
      [intros _; split; reflexivity | discriminate]. }
  split.
  { rewrite Hres. destruct (THREE.lengthSq _ !== Fin 0)%J;
      [discriminate | reflexivity]. }
  split; [| split; [| split; [| split]]].
  - rewrite Hres. destruct (THREE.lengthSq _ !== Fin 0)%J; [| reflexivity].
    unfold getPosition. simpl. rewrite Hc. reflexivity.
  - rewrite Hres. destruct (THREE.lengthSq _ !== Fin 0)%J; [| reflexivity].
    unfold getTarget. simpl. rewrite Hc. reflexivity.
  - rewrite Hres. unfold getCamera.
    destruct (THREE.lengthSq _ !== Fin 0)%J; simpl; [| rewrite Hc]; reflexivity.
  - intros Hfin. rewrite Hres.
    destruct (THREE.lengthSq _ !== Fin 0)%J eqn:E.
    + apply finite_RV in Hfin. destruct Hfin as (a & b & d & ->).
      destruct (normalize_finite a b d) as (x & y & z & Hn).
      unfold __setUp. cbn [snd set_camera _camera cam_set_dirty cam_set_worldup
        worldup].
      rewrite Hn, sub_RV, lengthSq_RV. unfold nne. simpl.
      rewrite Reqb_true by ring. reflexivity.
    + cbn [snd]. unfold __setUp. rewrite Hc, E. reflexivity.
  - intros Hen. unfold setWorldUpVector. rewrite Hen. reflexivity.
Qed.

Lemma setUp_normalizes_witness :
  fst (__setUp (Some (RV 0 0 2)) (snd (__setUp (Some (RV 0 0 2)) nav0)))
  = false.
Proof.
  destruct (setUp_normalizes nav0 installed0 (RV 0 0 2) eq_refl)
    as (_ & _ & _ & _ & _ & _ & H7 & _).
  apply H7. reflexivity.
Defined.

(** ** Setting the field of view *)

(** The clamp of [setVerticalFov] on a finite angle. *)
Lemma fov_clamp (f : R) :
  (if (Fin f <? kMinFOV)%J then kMinFOV
   else if (Fin f >? kMaxFOV)%J then kMaxFOV else Fin f)
  = Fin (Rmax 6.88 (Rmin f 100)).
Proof.
  unfold kMinFOV, kMaxFOV, ngt. simpl. unfold Rltb.
  destruct (Rlt_dec f 6.88) as [H1 | H1].
  - rewrite Rmin_left, Rmax_left by lra. reflexivity.
  - destruct (Rlt_dec 100 f) as [H2 | H2].
    + rewrite Rmin_right, Rmax_right by lra. reflexivity.
    + rewrite Rmin_left, Rmax_right by lra. reflexivity.
Qed.

Lemma fov_clamp_range (f : R) : 6.88 <= Rmax 6.88 (Rmin f 100) <= 100.
Proof.
  split; [apply Rmax_l |].
  apply Rmax_lub; [lra | apply Rmin_r].
Qed.

(** X17.  [setVerticalFov(fov, false)] on a perspective camera with
    ['fov'] enabled clamps the finite angle into [[6.88, 100]]: when the
    camera's field of view is within epsilon of the clamped value nothing
    changes, otherwise the camera's field of view becomes the clamped value
    (so 200 gives 100 and 1 gives 6.88), the camera is marked dirty and
    position and target stay.  On an orthographic camera the call changes
    nothing, whatever its arguments. *)
Theorem setVerticalFov_clamps (isPointVisible : Camera -> vec -> bool)
    (n : Navigation) (c : Camera) (f f0 : R) :
  getCamera n = Some c ->
  fov c = Fin f0 ->
  (isPerspective c = false ->
   forall f' adjust, setVerticalFov isPointVisible f' adjust n = n)
  /\ (isPerspective c = true ->
      isActionEnabled "fov" n = true ->
      let g := Rmax 6.88 (Rmin f 100) in
      let n' := setVerticalFov isPointVisible (Fin f) false n in
      6.88 <= g <= 100
      /\ (Rabs (f0 - g) <= 0.000001 -> n' = n)
      /\ (0.000001 < Rabs (f0 - g) ->
          getCamera n'
          = Some (mkCamera (position c) (target c) (pivot c) (up c)
                    (worldup c) (Fin g) true (near c) (far c)
                    (orthoScale c) true))).
Proof.
  intros Hc Hf. unfold getCamera in Hc. split.
  - intros Hp f' adjust. unfold setVerticalFov. rewrite Hc, Hp. reflexivity.
  - intros Hp Hen g n'. split; [apply fov_clamp_range |].
    assert (Hn' : n' = if Rleb (Rabs (f0 - g)) 0.000001 then n
                       else set_camera
                              (Some (cam_set_dirty true (camera_setFov (Fin g) c)))
                              n).
    { unfold n', setVerticalFov. rewrite Hc, Hp. cbn [negb]. cbv zeta.
      rewrite fov_clamp, Hen, Hf. fold g. unfold kEpsilon. cbn [nsub nabs nle].
      destruct (Rleb (Rabs (f0 - g)) 0.000001); [reflexivity |].
      reflexivity. }
    split; intros Hd; rewrite Hn'.
    + rewrite Rleb_true by exact Hd. reflexivity.
    + rewrite Rleb_false by exact Hd.
      unfold getCamera, set_camera, cam_set_dirty, camera_setFov, cam_set_fov.
      simpl. rewrite Hp. reflexivity.
Qed.

Lemma setVerticalFov_clamps_witness :
  getCamera (setVerticalFov (fun _ _ => true) (Fin 200) false nav0)
  = Some (mkCamera (RV 0 0 10) (RV 0 0 0) (RV 0 0 0) (RV 0 1 0) (RV 0 1 0)
            (Fin (Rmax 6.88 (Rmin 200 100))) true (Fin 1) (Fin 1000) (Fin 1)
            true).
Proof.
  destruct (setVerticalFov_clamps (fun _ _ => true) nav0 installed0 200 60
              eq_refl eq_refl) as (_ & H).
  destruct (H eq_refl eq_refl) as (_ & _ & H3).
  apply H3. rewrite Rmin_right, Rmax_right by lra.
  unfold Rabs. destruct (Rcase_abs (60 - 100)); lra.
Defined.

Section Footprint.

Variable isPointVisible : Camera -> vec -> bool.
Variable n : Navigation.
Variable c : Camera.
Variables px py pz tx ty tz f f0 : R.

Hypothesis has_camera : getCamera n = Some c.
Hypothesis perspective : isPerspective c = true.
Hypothesis fov_enabled : isActionEnabled "fov" n = true.
Hypothesis no_pivot : __pivotIsSetFlag n = false.
Hypothesis position_finite : position c = RV px py pz.
Hypothesis target_finite : target c = RV tx ty tz.
Hypothesis eye_nonzero :
  (tx - px) * (tx - px) + (ty - py) * (ty - py) + (tz - pz) * (tz - pz) <> 0.
Hypothesis old_fov : fov c = Fin f0.
Hypothesis old_fov_range : 0 < f0 < 180.
Hypothesis changes : 0.000001 < Rabs (f0 - Rmax 6.88 (Rmin f 100)).

Let g := Rmax 6.88 (Rmin f 100).




End Footprint.



(** ** What a dolly changes *)

(** X19.  [dollyFromPoint] on an object with a camera raises no error,
    whatever the distance and the anchor, and changes nothing but the
    camera's position, target and dirty flag: pivot, up, world up, field of
    view, projection and every field of the navigation object stay, and
    the camera is dirty whenever anything changed.  Nothing changes at all
    when ['zoom'] is disabled, when the distance is within epsilon of zero,
    or when the distance is not a number. *)
Theorem dollyFromPoint_moves_only_the_view (n : Navigation) (c : Camera)
    (distance : num) (point : vec) :
  getCamera n = Some c ->
  exists (n' : Navigation) (c' : Camera),
    dollyFromPoint distance point n = Some n'
    /\ getCamera n' = Some c'
    /\ n' = set_camera (Some c') n
    /\ c' = cam_set_dirty (dirty c')
              (cam_set_target (target c') (cam_set_position (position c') c))
    /\ (n' = n \/ dirty c' = true)
    /\ (isActionEnabled "zoom" n = false -> n' = n)
    /\ ((nabs distance <=? __kEpsilon n)%J = true -> n' = n)
    /\ (distance = NaN -> n' = n).
Proof.
  intros Hc. unfold getCamera in Hc.
  assert (Hsame : exists (n' : Navigation) (c' : Camera),
             Some n = Some n' /\ getCamera n' = Some c'
             /\ n' = set_camera (Some c') n
             /\ c' = cam_set_dirty (dirty c')
                       (cam_set_target (target c')
                          (cam_set_position (position c') c))
             /\ (n' = n \/ dirty c' = true) /\ n' = n).
  { exists n, c. split; [reflexivity |]. split; [exact Hc |].
    split; [destruct n; simpl in *; rewrite Hc; reflexivity |].
    split; [destruct c; reflexivity |]. split; [left |]; reflexivity. }
  unfold dollyFromPoint.
  destruct (isActionEnabled "zoom" n) eqn:Hen; cbn [negb orb].
  2: { destruct Hsame as (n' & c' & H1 & H2 & H3 & H4 & H5 & H6).
       exists n', c'. repeat (split; [assumption |]).
       split; [| split]; intros _; exact H6. }
  destruct (nabs distance <=? __kEpsilon n)%J eqn:Heps.
  { destruct Hsame as (n' & c' & H1 & H2 & H3 & H4 & H5 & H6).
    exists n', c'. repeat (split; [assumption |]).
    split; [| split]; intros _; exact H6. }
  cbv zeta.
  set (oldLength := THREE.length (THREE.sub point (getPosition n))).
  set (newLength := if (oldLength + distance <? __kEpsilon n * Fin 10)%J
                    then (__kEpsilon n * Fin 10)%J
                    else (oldLength + distance)%J).
  destruct (nabs (newLength / oldLength - Fin 1) >? __kEpsilon n)%J eqn:Hmove.
  - unfold getCamera. rewrite Hc. cbn [mbind option_bind].
    unfold setView. rewrite Hc.
    eexists. eexists. split; [reflexivity |]. split; [reflexivity |].
    split; [reflexivity |]. split; [reflexivity |].
    split; [right; reflexivity |].
    split; [discriminate |]. split; [discriminate |].
    intros ->. exfalso.
    assert (Hnew : newLength = NaN).
    { unfold newLength. destruct oldLength; reflexivity. }
    rewrite Hnew in Hmove. cbn [ndiv nsub nadd nabs] in Hmove.
    unfold ngt in Hmove. destruct (__kEpsilon n); discriminate.
  - destruct Hsame as (n' & c' & H1 & H2 & H3 & H4 & H5 & H6).
    exists n', c'. repeat (split; [assumption |]).
    split; [discriminate |]. split; [discriminate |]. intros _; exact H6.
Qed.

Lemma dollyFromPoint_moves_only_the_view_witness :
  exists n' : Navigation,
    dollyFromPoint (Fin 5) (RV 0 0 0) nav0 = Some n'
    /\ getPivotPoint n' = getPivotPoint nav0.
Proof.
  destruct (dollyFromPoint_moves_only_the_view nav0 installed0 (Fin 5) (RV 0 0 0)
              eq_refl)
    as (n' & c' & H1 & H2 & _ & H4 & _).
  exists n'. split; [exact H1 |].
  unfold getPivotPoint. unfold getCamera in H2. rewrite H2, H4. reflexivity.
Defined.

(** ** Focal lengths *)

(** The angle [fl2fov] gives for a positive focal length, and the focal
    length [fov2fl] gives back for that angle. *)
Lemma fl2fov_angle (m : R) :
  0 < m ->
  let f := 2 * atan (12 / m) * (180 / PI) in
  fl2fov (Fin m) = Fin f /\ 0 < f < 180
  /\ fov2fl (Fin f) = Fin (Rround m).
Proof.
  intros Hm f. pose proof PI_RGT_0 as Hpi.
  assert (Hu : 0 < 12 / m) by (apply Rdiv_lt_0_compat; lra).
  destruct (atan_pos (12 / m) Hu) as (Ha0 & Ha1).
  assert (Hhalf : f * (PI / 180) / 2 = atan (12 / m))
    by (unfold f; field; lra).
  assert (Hf : 0 < f < 180).
  { assert (H2 : f = atan (12 / m) * (360 / PI)) by (unfold f; field; lra).
    assert (Hq : 0 < 360 / PI) by (apply Rdiv_lt_0_compat; lra).
    assert (H180 : 180 = PI / 2 * (360 / PI)) by (field; lra).
    split.
    - rewrite H2. apply Rmult_lt_0_compat; assumption.
    - rewrite H2, H180 at 1. apply Rmult_lt_compat_r; assumption. }
  split; [apply fl2fov_fin; exact Hm |]. split; [exact Hf |].
  destruct (fov2fl_fin f Hf) as (_ & ->).
  rewrite Hhalf, tan_atan. do 2 f_equal. field. lra.
Qed.

(** X20.  Focal lengths and angles: a focal length that is zero or
    negative is converted as if it were 0.0001; and for a whole number of
    millimetres from 1 to 10000, [fl2fov] gives an angle strictly between 0
    and 180 degrees and [fov2fl] of that angle is the focal length
    itself. *)
Theorem focal_length_round_trip :
  (forall m : R, m <= 0 -> fl2fov (Fin m) = fl2fov (Fin 0.0001))
  /\ (forall z : Z,
         (1 <= z <= 10000)%Z ->
         (exists f : R, fl2fov (Fin (IZR z)) = Fin f /\ 0 < f < 180)
         /\ fov2fl (fl2fov (Fin (IZR z))) = Fin (IZR z)).
Proof.
  split.
  - intros m Hm. unfold fl2fov. cbv zeta. cbn [nle].
    rewrite Rleb_true by exact Hm. rewrite Rleb_false by lra. reflexivity.
  - intros z Hz.
    assert (Hm : 0 < IZR z) by (apply IZR_lt; lia).
    destruct (fl2fov_angle (IZR z) Hm) as (Hfl & Hf & Hback).
    split; [eexists; split; [exact Hfl | exact Hf] |].
    rewrite Hfl, Hback. f_equal. apply Rround_eq. lra.
Qed.

Lemma focal_length_round_trip_witness :
  fov2fl (fl2fov (Fin 50)) = Fin 50.
Proof.
  destruct focal_length_round_trip as (_ & H).
  destruct (H 50%Z) as (_ & H50); [lia | exact H50].
Defined.

(** A changing [setVerticalFov] ends with the clamped angle on the camera,
    with or without the position adjustment. *)
Lemma setVerticalFov_stores (isPointVisible : Camera -> vec -> bool)
    (n : Navigation) (c : Camera) (f : R) (adjust : bool) :
  getCamera n = Some c -> isPerspective c = true ->
  isActionEnabled "fov" n = true ->
  (nabs (fov c - Fin (Rmax 6.88 (Rmin f 100))) <=? kEpsilon)%J = false ->
  getVerticalFov (setVerticalFov isPointVisible (Fin f) adjust n)
  = Some (Fin (Rmax 6.88 (Rmin f 100))).
Proof.
  intros Hc Hp Hen Hch. unfold getCamera in Hc.
  unfold setVerticalFov. rewrite Hc, Hp. cbn [negb]. cbv zeta.
  rewrite fov_clamp, Hen, Hch.
  destruct adjust.
  - destruct (__pivotIsSetFlag n && isPointVisible c (getPivotPoint n)).
    + unfold setTarget, setPosition. rewrite Hc. reflexivity.
    + unfold setPosition. rewrite Hc. reflexivity.
  - rewrite Hc. reflexivity.
Qed.

(** Focal lengths from 12 to 160 millimetres give angles that the clamp of
    [setVerticalFov] leaves alone. *)
Lemma fl2fov_unclamped (m : R) :
  12 <= m <= 160 ->
  let f := 2 * atan (12 / m) * (180 / PI) in
  Rmax 6.88 (Rmin f 100) = f.
Proof.
  intros Hm f. pose proof PI_lower as Hpl. pose proof PI_upper as Hpu.
  assert (Hq : 0 < 360 / PI) by (apply Rdiv_lt_0_compat; lra).
  assert (H2 : f = atan (12 / m) * (360 / PI)) by (unfold f; field; lra).
  assert (Hu1 : 12 / m <= 1) by (apply Rdiv_le_bound; lra).
  assert (Hu0 : 0.075 <= 12 / m) by (apply Rdiv_ge_bound; lra).
  assert (Hup : atan (12 / m) <= PI / 4).
  { rewrite <- atan_1. destruct Hu1 as [Hlt | ->]; [| lra].
    left. apply atan_increasing. exact Hlt. }
  set (t := 3.44 * (PI / 180)).
  assert (Ht : 0 < t <= 0.07) by (unfold t; lra).
  assert (Hlow : t < atan (12 / m)).
  { rewrite <- (atan_tan t) by lra.
    apply atan_increasing.
    pose proof (tan_small_linear t 0.07 Ht ltac:(lra)) as Htan.
    nra. }
  assert (Hf : 6.88 <= f <= 100).
  { rewrite H2. split.
    - assert (HPI : PI / 180 * (360 / PI) = 2) by (field; lra).
      assert (H688 : t * (360 / PI) = 6.88).
      { unfold t. rewrite Rmult_assoc, HPI. lra. }
      rewrite <- H688. left. apply Rmult_lt_compat_r; assumption.
    - apply Rle_trans with (PI / 4 * (360 / PI)).
      + apply Rmult_le_compat_r; lra.
      + assert (H90 : PI / 4 * (360 / PI) = 90) by (field; lra). lra. }
  rewrite Rmin_left, Rmax_right by lra. reflexivity.
Qed.

(** X21.  [setFocalLength] followed by [getFocalLength]: on a perspective
    camera with ['fov'] enabled, a whole focal length from 12 to 160
    millimetres whose angle is not within epsilon of the camera's field of
    view is read back as given, with or without the position
    adjustment. *)
Theorem setFocalLength_getFocalLength
    (isPointVisible : Camera -> vec -> bool) (n : Navigation) (c : Camera)
    (z : Z) (adjust : bool) :
  getCamera n = Some c -> isPerspective c = true ->
  isActionEnabled "fov" n = true ->
  (12 <= z <= 160)%Z ->
  (nabs (fov c - fl2fov (Fin (IZR z))) <=? kEpsilon)%J = false ->
  getFocalLength (setFocalLength isPointVisible (Fin (IZR z)) adjust n)
  = Some (Fin (IZR z)).
Proof.
  intros Hc Hp Hen Hz Hch.
  assert (Hm : 12 <= IZR z <= 160) by (split; apply IZR_le; lia).
  destruct (fl2fov_angle (IZR z) ltac:(lra)) as (Hfl & _ & Hback).
  pose proof (fl2fov_unclamped (IZR z) Hm) as Hcl. cbv zeta in Hfl, Hback, Hcl.
  unfold setFocalLength, getFocalLength. rewrite Hfl in Hch |- *.
  rewrite <- Hcl in Hch.
  rewrite (setVerticalFov_stores isPointVisible n c _ adjust Hc Hp Hen Hch).
  cbn [mbind option_bind]. rewrite Hcl, Hback. do 2 f_equal.
  apply Rround_eq. lra.
Qed.

Lemma setFocalLength_getFocalLength_witness :
  getFocalLength (setFocalLength (fun _ _ => true) (Fin 12) false nav0)
  = Some (Fin 12).
Proof.
  refine (setFocalLength_getFocalLength (fun _ _ => true) nav0 installed0
            12%Z false eq_refl eq_refl eq_refl _ _).
  - lia.
  - destruct (fl2fov_angle 12 ltac:(lra)) as (-> & _ & _).
    replace (12 / 12) with 1 by field. rewrite atan_1.
    replace (2 * (PI / 4) * (180 / PI)) with 90
      by (field; pose proof PI_RGT_0; lra).
    unfold kEpsilon. cbn. apply Rleb_false.
    unfold Rabs. destruct (Rcase_abs (60 - 90)); lra.
Defined.

(** ** Orienting the camera up *)

Section UpFixedPoint.

Variables e1 e2 e3 a1 a2 a3 : R.

Hypothesis unit_up : a1 * a1 + a2 * a2 + a3 * a3 = 1.
Hypothesis orthogonal : a1 * e1 + a2 * e2 + a3 * e3 = 0.
Hypothesis eye_nonzero : e1 * e1 + e2 * e2 + e3 * e3 <> 0.



End UpFixedPoint.



(** ** The pivot plane *)



(** ** World points *)






